(** * Voice assistant command backend: dispatch and reminder model

    A shallow embedding of [src/assistant.py]: the command dispatcher
    [process_command], the reminder handler [set_reminder_data], the news
    lookup [get_news_data] and the due-reminder sweep that closes every
    request, together with the properties of the specification that concern
    them.

    Conventions of the embedding.
    - A Python [str] is a list of characters.  Characters are the code points
      below 256, which the type [ascii] enumerates; on that range the
      predicates below ([isspace], [isdigit], [lower_char]) agree with
      Python's [str.isspace], the regex classes [\s] and [\d], and
      [str.lower].
    - A [datetime] is the number of microseconds since 0001-01-01T00:00:00;
      a [timedelta] is a number of microseconds.  The source stores the fire
      time of a reminder as [isoformat()] text and reads it back with
      [fromisoformat]; that round trip is exact, so the record keeps the
      instant itself.
    - The global list [reminders] is threaded explicitly through a state and
      exception monad [M]. *)

From Stdlib Require Import Ascii String ZArith NArith Lia Bool DecimalString List.
Import ListNotations.
Open Scope string_scope.
Open Scope list_scope.

Set Implicit Arguments.

(** ** Python strings *)

Definition str := list ascii.
Coercion list_ascii_of_string : string >-> list.

Definition strs (l : list string) : list str := map list_ascii_of_string l.

Module Py.

Definition ord (c : ascii) : N := N_of_ascii c.

Definition between (lo hi n : N) : bool := (N.leb lo n && N.leb n hi)%bool.

(** [str.isspace] on one character; also the regex class [\s] and the set
    removed by [str.strip()] and skipped by [int()]. *)
Definition isspace (c : ascii) : bool :=
  let n := ord c in
  (between 9 13 n || between 28 32 n || N.eqb n 133 || N.eqb n 160)%bool.

(** The regex class [\d] and the digits [int()] accepts. *)
Definition isdigit (c : ascii) : bool := between 48 57 (ord c).

Definition isupper (c : ascii) : bool :=
  let n := ord c in
  (between 65 90 n || (between 192 222 n && negb (N.eqb n 215)))%bool.

Definition lower_char (c : ascii) : ascii :=
  if isupper c then ascii_of_N (ord c + 32) else c.

(** [s.lower()] *)
Definition lower (s : str) : str := map lower_char s.

(** [a == b] *)
Fixpoint eqb (a b : str) : bool :=
  match a, b with
  | [], [] => true
  | x :: a', y :: b' => (Ascii.eqb x y && eqb a' b')%bool
  | _, _ => false
  end.

(** [s.startswith(p)] *)
Fixpoint startswith (p s : str) : bool :=
  match p, s with
  | [], _ => true
  | _ :: _, [] => false
  | a :: p', b :: s' => (Ascii.eqb a b && startswith p' s')%bool
  end.

(** [p in s] *)
Fixpoint contains (p s : str) : bool :=
  (startswith p s ||
   match s with
   | [] => false
   | _ :: s' => contains p s'
   end)%bool.

(** [s.find(p)]: the index of the first occurrence, [-1] when there is none. *)
Fixpoint find (p s : str) : Z :=
  if startswith p s then 0%Z
  else match s with
       | [] => (-1)%Z
       | _ :: s' => let i := find p s' in
                    if (i <? 0)%Z then (-1)%Z else (i + 1)%Z
       end.

(** [s[i:]], with Python's reading of a negative index. *)
Definition slice_from (i : Z) (s : str) : str :=
  let n := Z.of_nat (length s) in
  let j := if (i <? 0)%Z then Z.max 0 (n + i) else i in
  skipn (Z.to_nat j) s.

(** [s.split(sep, 1)] for a non-empty [sep]: [Some (a, b)] stands for the
    two-element list [[a, b]] cut at the first occurrence of [sep], [None]
    for the one-element list [[s]]. *)
Fixpoint split_once (sep s : str) : option (str * str) :=
  if startswith sep s then Some ([], skipn (length sep) s)
  else match s with
       | [] => None
       | c :: s' =>
           match split_once sep s' with
           | Some (a, b) => Some (c :: a, b)
           | None => None
           end
       end.

Fixpoint lstrip (s : str) : str :=
  match s with
  | c :: s' => if isspace c then lstrip s' else s
  | [] => []
  end.

Definition rstrip (s : str) : str := rev (lstrip (rev s)).

(** [s.strip()] *)
Definition strip (s : str) : str := rstrip (lstrip s).

(** [s.split(" ")[0]]: the text before the first space (the whole of [s]
    when it has none); the list returned by [split] is never empty. *)
Fixpoint first_field (s : str) : str :=
  match s with
  | [] => []
  | c :: s' => if Ascii.eqb c " " then [] else c :: first_field s'
  end.

(** [sep.join(l)] *)
Fixpoint join (sep : str) (l : list str) : str :=
  match l with
  | [] => []
  | [x] => x
  | x :: l' => x ++ sep ++ join sep l'
  end.

(** [str(n)] for an [int]. *)
Definition str_of_int (n : Z) : str := NilZero.string_of_int (Z.to_int n).

Definition digit_value (c : ascii) : Z := Z.of_N (ord c - 48).

(** The digit part of an [int()] literal: decimal digits, where a single
    underscore may stand between two digits. *)
Fixpoint int_digits (s : str) (acc : Z) (after_digit : bool) : option Z :=
  match s with
  | [] => if after_digit then Some acc else None
  | c :: s' =>
      if isdigit c then int_digits s' (10 * acc + digit_value c)%Z true
      else if (Ascii.eqb c "_" && after_digit)%bool then int_digits s' acc false
      else None
  end.

(** [int(s)]: [None] stands for [ValueError].  (The cap that recent
    CPython versions put on the number of digits, 4300 by default, is left
    out; it turns a longer literal into a [ValueError] as well.) *)
Definition int (s : str) : option Z :=
  match strip s with
  | c :: s' =>
      if Ascii.eqb c "-" then option_map Z.opp (int_digits s' 0%Z false)
      else if Ascii.eqb c "+" then int_digits s' 0%Z false
      else int_digits (c :: s') 0%Z false
  | [] => None
  end.

End Py.

(** ** Regular expressions

    The fragment of [re] that the reminder pattern uses, with the
    backtracking (leftmost, greedy) semantics of Python's engine written in
    continuation-passing style. *)

Module Re.

Inductive regex : Type :=
| Class (p : ascii -> bool)
| Cat (r1 r2 : regex)
| Alt (r1 r2 : regex)
| Opt (r : regex)
| Star (p : ascii -> bool).

Definition Plus (p : ascii -> bool) : regex := Cat (Class p) (Star p).

Fixpoint Lit (s : str) : regex :=
  match s with
  | [] => Star (fun _ => false)
  | [c] => Class (Ascii.eqb c)
  | c :: s' => Cat (Class (Ascii.eqb c)) (Lit s')
  end.

(** [rmatch r s k]: match [r] at the head of [s] and hand the rest to the
    continuation [k]; when [k] fails the matcher falls back to its next
    choice. *)
Fixpoint rmatch {A : Type} (r : regex) (s : str) (k : str -> option A)
  : option A :=
  match r with
  | Class p =>
      match s with
      | c :: s' => if p c then k s' else None
      | [] => None
      end
  | Cat r1 r2 => rmatch r1 s (fun s' => rmatch r2 s' k)
  | Alt r1 r2 =>
      match rmatch r1 s k with
      | Some x => Some x
      | None => rmatch r2 s k
      end
  | Opt r1 =>
      match rmatch r1 s k with
      | Some x => Some x
      | None => k s
      end
  | Star p =>
      (fix star (s : str) : option A :=
         match s with
         | c :: s' =>
             if p c then
               match star s' with
               | Some x => Some x
               | None => k s
               end
             else k s
         | [] => k s
         end) s
  end.

(** [re.search(r, s).group(0)], [None] when there is no match. *)
Fixpoint search (r : regex) (s : str) : option str :=
  match rmatch r s (fun rest => Some rest) with
  | Some rest => Some (firstn (length s - length rest) s)
  | None =>
      match s with
      | [] => None
      | _ :: s' => search r s'
      end
  end.

End Re.

(** ** Dates and times *)

Module Datetime.

Definition microseconds_per_second : Z := 1000000.
Definition microseconds_per_day : Z := 86400 * microseconds_per_second.

(** [datetime.max] is 9999-12-31T23:59:59.999999, the last microsecond of day
    3652059 counted from 0001-01-01. *)
Definition max : Z := 3652059 * microseconds_per_day - 1.

(** The largest magnitude of the day count of a [timedelta]. *)
Definition max_delta_days : Z := 999999999.

Definition two_digits (n : Z) : str :=
  if (n <? 10)%Z then "0" ++ Py.str_of_int n else Py.str_of_int n.

(** [t.strftime("%I:%M %p")] *)
Definition strftime_I_M_p (t : Z) : str :=
  let hour := ((t / (3600 * microseconds_per_second)) mod 24)%Z in
  let minute := ((t / (60 * microseconds_per_second)) mod 60)%Z in
  let hour12 := if (hour mod 12 =? 0)%Z then 12%Z else (hour mod 12)%Z in
  two_digits hour12 ++ ":" ++ two_digits minute ++ " " ++
  (if (hour <? 12)%Z then "AM" else "PM").

End Datetime.

(** ** Exceptions and the reminder store *)

Inductive exn : Type :=
| ValueError
| IndexError
| OverflowError
| OtherError (name : str).

Inductive outcome (A : Type) : Type :=
| Returned (a : A)
| Raised (e : exn).
Arguments Raised {A} e.

(** [{"time": ..., "text": ...}] *)
Record reminder_data : Type := mkReminder { time : Z; text : str }.

Definition store := list reminder_data.

(** Computations over the global [reminders]; a raised exception leaves the
    list as the code had it at that moment. *)
Definition M (A : Type) : Type := store -> outcome A * store.

Definition ret {A} (a : A) : M A := fun reminders => (Returned a, reminders).

Definition raise {A} (e : exn) : M A := fun reminders => (Raised e, reminders).

Definition bind {A B} (m : M A) (f : A -> M B) : M B :=
  fun reminders =>
    match m reminders with
    | (Returned a, reminders') => f a reminders'
    | (Raised e, reminders') => (Raised e, reminders')
    end.

Definition lift {A} (o : outcome A) : M A := fun reminders => (o, reminders).

(** [try: m  except (ValueError, IndexError): h] when [catches] selects
    those two. *)
Definition try_except {A} (m : M A) (catches : exn -> bool) (h : M A) : M A :=
  fun reminders =>
    match m reminders with
    | (Raised e, reminders') =>
        if catches e then h reminders' else (Raised e, reminders')
    | r => r
    end.

Declare Scope monad_scope.
Delimit Scope monad_scope with monad.
Notation "x <- m ;; k" := (bind m (fun x => k))
  (at level 61, m at next level, right associativity) : monad_scope.
Notation "m ;; k" := (bind m (fun _ => k))
  (at level 61, right associativity) : monad_scope.
Open Scope monad_scope.

Definition reminder_eqb (a b : reminder_data) : bool :=
  (Z.eqb (time a) (time b) && Py.eqb (text a) (text b))%bool.

(** [reminders.append(r)] *)
Definition append (r : reminder_data) : M unit :=
  fun reminders => (Returned tt, reminders ++ [r]).

(** The list left by [l.remove(r)]: the first element equal to [r] is
    dropped; [None] when there is none. *)
Fixpoint remove_first (r : reminder_data) (l : store) : option store :=
  match l with
  | [] => None
  | x :: l' =>
      if reminder_eqb x r then Some l'
      else option_map (cons x) (remove_first r l')
  end.

(** [reminders.remove(r)]; raises [ValueError] when [r] is not in the list. *)
Definition remove (r : reminder_data) : M unit :=
  fun reminders =>
    match remove_first r reminders with
    | Some reminders' => (Returned tt, reminders')
    | None => (Raised ValueError, reminders)
    end.

(** [datetime.timedelta(...)] from an exact number of microseconds. *)
Definition timedelta (microseconds : Z) : outcome Z :=
  let days := (microseconds / Datetime.microseconds_per_day)%Z in
  if ((- Datetime.max_delta_days <=? days)%Z &&
      (days <=? Datetime.max_delta_days)%Z)%bool
  then Returned microseconds else Raised OverflowError.

(** [t + delta] on a [datetime]. *)
Definition datetime_add (t delta : Z) : outcome Z :=
  let r := (t + delta)%Z in
  if ((0 <=? r)%Z && (r <=? Datetime.max)%Z)%bool
  then Returned r else Raised OverflowError.

(** ** The reminder handler *)

Record reminder_response : Type :=
  mkReminderResponse { rr_text : str; reminder : option reminder_data }.

Definition int_or_raise (s : str) : M Z :=
  match Py.int s with
  | Some n => ret n
  | None => raise ValueError
  end.

Definition is_value_or_index_error (e : exn) : bool :=
  match e with
  | ValueError | IndexError => true
  | _ => false
  end.

Definition unsupported_unit_text : str :=
  "I can only set reminders in seconds or minutes for now. Please try again.".

Definition bad_time_text : str :=
  "Sorry, I couldn't understand the time. Please specify a number followed by 'seconds' or 'minutes'.".

(** [set_reminder_data(reminder_text, time_str)]; [now] is the value that
    [datetime.datetime.now()] returns inside the call. *)
Definition set_reminder_data (reminder_text time_str : str) (now : Z)
  : M reminder_response :=
  try_except
    (if Py.contains "seconds" time_str then
       seconds <- int_or_raise (Py.first_field time_str) ;;
       delta <- lift (timedelta (seconds * Datetime.microseconds_per_second)) ;;
       reminder_time <- lift (datetime_add now delta) ;;
       let reminder_data := mkReminder reminder_time reminder_text in
       append reminder_data ;;
       ret (mkReminderResponse
              ("Okay, I will remind you to '" ++ reminder_text ++ "' in " ++
               Py.str_of_int seconds ++ " seconds.")
              (Some reminder_data))
     else if Py.contains "minutes" time_str then
       minutes <- int_or_raise (Py.first_field time_str) ;;
       delta <- lift (timedelta (minutes * 60 * Datetime.microseconds_per_second)) ;;
       reminder_time <- lift (datetime_add now delta) ;;
       let reminder_data := mkReminder reminder_time reminder_text in
       append reminder_data ;;
       ret (mkReminderResponse
              ("Okay, I will remind you to '" ++ reminder_text ++ "' in " ++
               Py.str_of_int minutes ++ " minutes.")
              (Some reminder_data))
     else ret (mkReminderResponse unsupported_unit_text None))
    is_value_or_index_error
    (ret (mkReminderResponse bad_time_text None)).

(** ** External collaborators *)

Record weather_details : Type := mkWeatherDetails {
  location : str;
  temperature : str;
  humidity : str;
  pressure : str;
  description : str
}.

(** The dict returned by [get_weather_data]: always a ["text"], and the
    five detail entries on a successful lookup. *)
Record weather_result : Type :=
  mkWeatherResult { w_text : str; w_details : option weather_details }.

(** An element of [data["response"]["results"]]. *)
Record article : Type := mkArticle { webTitle : str; webUrl : str }.

(** What [requests.get(url)] followed by [raise_for_status()] and [json()]
    gives for the news search: a [RequestException] whose text is
    [error_text], or a body whose ["response"] object has the entries
    [status] and [results] ([None] for an absent entry). *)
Inductive guardian_reply : Type :=
| RequestFailed (error_text : str)
| Reply (status : option str) (results : option (list article)).

(** The world around one request. *)
Record environment : Type := mkEnvironment {
  (** [os.getenv("GUARDIAN_API_KEY")] *)
  GUARDIAN_API_KEY : option str;
  (** [(datetime.date.today() - datetime.timedelta(days=1)).isoformat()] *)
  one_day_ago : str;
  (** the news search endpoint, by URL *)
  requests_get : str -> guardian_reply;
  (** the weather lookup [get_weather_data(location=...)], an external
      collaborator of the dispatcher *)
  get_weather_data : option str -> outcome weather_result;
  (** [str(e)] for an exception [e] *)
  exn_text : exn -> str
}.

(** ** The news lookup *)

Record news_result : Type :=
  mkNewsResult { n_text : str; articles : list (str * str) }.

Definition common_tags : list str :=
  strs ["politics"; "technology"; "sports"; "science"; "business"].

(** Python's truth value of an optional string: [None] and [""] are false. *)
Definition truthy (o : option str) : option str :=
  match o with
  | Some (c :: s) => Some (c :: s)
  | _ => None
  end.

Fixpoint headlines (i : Z) (arts : list article) : list str :=
  match arts with
  | [] => []
  | a :: arts' =>
      ("Headline number " ++ Py.str_of_int (i + 1) ++ ": " ++ webTitle a)
        :: headlines (i + 1) arts'
  end.

Definition no_headlines_for_topic_text : str :=
  "I couldn't find any news headlines for that topic from yesterday.".

Definition no_headlines_now_text : str :=
  "I couldn't fetch any news headlines at the moment.".

(** [get_news_data(query)] *)
Definition get_news_data (env : environment) (query : option str) : news_result :=
  match truthy (GUARDIAN_API_KEY env) with
  | None => mkNewsResult "Please set your Guardian API key." []
  | Some key =>
      let base_url : str := "https://content.guardianapis.com/search?" in
      let from_date_param := "&from-date=" ++ one_day_ago env in
      let complete_url :=
        base_url ++ from_date_param ++
        "&order-by=newest&page-size=5&api-key=" ++ key in
      let '(complete_url, intro_text) :=
        match truthy query with
        | Some q =>
            if existsb (Py.eqb q) common_tags then
              (complete_url ++ "&q=" ++ q ++ "&tag=" ++ q ++ "/" ++ q,
               "Getting the latest news about " ++ q ++
               " from yesterday from The Guardian.")
            else
              (complete_url ++ "&q=" ++ q,
               "Getting the latest news about " ++ q ++
               " from yesterday from The Guardian.")
        | None =>
            (complete_url,
             ("Here are the top headlines from yesterday from The Guardian:" : str))
        end in
      match requests_get env complete_url with
      | Reply status results =>
          let status_ok :=
            match status with Some s => Py.eqb s "ok" | None => false end in
          let results_truthy :=
            match results with Some (_ :: _) => true | _ => false end in
          if (status_ok && results_truthy)%bool then
            let arts := match results with Some l => l | None => [] end in
            match arts with
            | [] => mkNewsResult no_headlines_for_topic_text []
            | _ :: _ =>
                let urls := map (fun a => (webTitle a, webUrl a)) arts in
                let headlines_text := Py.join ". " (headlines 0 arts) in
                mkNewsResult
                  (intro_text ++ " " ++ headlines_text ++
                   ". Would you like me to provide the URLs to see the full articles?")
                  urls
            end
          else mkNewsResult no_headlines_now_text []
      | RequestFailed e =>
          mkNewsResult
            ("Sorry, I had trouble getting the news. The error was: " ++ e) []
      end
  end.

(** ** Intent classification *)

(** The branch of the [if]/[elif] chain of [process_command] that a command
    selects, with the arguments the branch hands to its handler. *)
Inductive intent : Type :=
| TimeQuery
| WeatherQuery (location_to_check : option str)
| NewsQuery (query : option str)
| SetReminder (reminder_text time_str : str)
| ReminderWithoutMessage
| ReminderWithoutTime
| Confirmation
| Goodbye
| Unknown.

(** [any(keyword in command for keyword in keywords)] *)
Definition any_in (keywords : list str) (command : str) : bool :=
  existsb (fun keyword => Py.contains keyword command) keywords.

Definition time_keywords : list str :=
  strs ["time"; "hour"; "clock"; "o'clock"].

Definition weather_keywords : list str :=
  strs ["weather"; "climate"; "forecast"; "meteorology"; "temperature";
        "cloud cover"; "windspeed"; "humidity"; "pressure"].

Definition trigger_words : list str :=
  strs ["on"; "about"; "relating to"; "for"].

Definition reminder_keywords : list str :=
  strs ["reminder"; "remind me"; "set reminder"].

Definition confirmation_words : list str :=
  strs ["yes"; "would like"; "i'd like that"; "affirmative"; "confirmative";
        "yep"; "yeah"; "please do"; "sure"; "positive"; "do it"].

Definition goodbye_words : list str :=
  strs ["exit"; "goodbye"; "bye"; "see you later"; "tata"; "see ya";
        "shareenna"; "alvida"; "adios"; "ciao"; "au revoir"; "sayonara";
        "pootte"].

(** [(\d+)\s*(seconds?|minutes?)] *)
Definition reminder_pattern : Re.regex :=
  Re.Cat (Re.Plus Py.isdigit)
    (Re.Cat (Re.Star Py.isspace)
       (Re.Alt (Re.Cat (Re.Lit "second") (Re.Opt (Re.Lit "s")))
               (Re.Cat (Re.Lit "minute") (Re.Opt (Re.Lit "s"))))).

(** The location handed to the weather lookup. *)
Definition weather_location (command : str) : option str :=
  if (Py.contains "weather in" command || Py.contains "weather at" command)%bool
  then
    let location_keyword : str :=
      if Py.contains "weather in" command then "weather in" else "weather at" in
    let location_start_index :=
      (Py.find location_keyword command + Z.of_nat (length location_keyword))%Z in
    Some (Py.strip (Py.slice_from location_start_index command))
  else None.

(** The loop over [trigger_words]; [s.split(word, 1)[1]] raises [IndexError]
    on a one-element list, which the loop body swallows. *)
Fixpoint news_query (words : list str) (command : str) : option str :=
  match words with
  | [] => None
  | word :: words' =>
      if Py.contains (" " ++ word ++ " ") command then
        match Py.split_once word command with
        | Some (_, after) => Some (Py.strip after)
        | None => news_query words' command
        end
      else news_query words' command
  end.

(** The reminder branch up to the call of the handler. *)
Definition reminder_intent (command : str) : outcome intent :=
  match Re.search reminder_pattern command with
  | Some time_str =>
      match Py.split_once time_str command with
      | Some (_, after) =>
          let reminder_text_part := Py.strip after in
          let reminder_text :=
            if Py.contains " to " reminder_text_part then
              match Py.split_once " to " reminder_text_part with
              | Some (_, message) => Returned (Py.strip message)
              | None => Raised IndexError
              end
            else Returned reminder_text_part in
          match reminder_text with
          | Returned [] => Returned ReminderWithoutMessage
          | Returned reminder_text => Returned (SetReminder reminder_text time_str)
          | Raised e => Raised e
          end
      | None => Raised IndexError
      end
  | None => Returned ReminderWithoutTime
  end.

(** The chain of tests on the lowercased [command]; the first test that
    succeeds decides. *)
Definition classify (command : str) : outcome intent :=
  if any_in time_keywords command then Returned TimeQuery
  else if any_in weather_keywords command then
    Returned (WeatherQuery (weather_location command))
  else if Py.contains "news" command then
    Returned (NewsQuery (news_query trigger_words command))
  else if any_in reminder_keywords command then reminder_intent command
  else if any_in confirmation_words command then Returned Confirmation
  else if any_in goodbye_words command then Returned Goodbye
  else Returned Unknown.

(** ** Responses *)

(** The dict [response_data]: a bare [{"text", "type"}] pair, or the dict of
    a handler under the ["type"] of its branch. *)
Inductive response_data : Type :=
| Plain (r_text r_type : str)
| WeatherResponse (w : weather_result)
| NewsResponse (n : news_result)
| ReminderSetResponse (r : reminder_response).

Definition response_type (r : response_data) : str :=
  match r with
  | Plain _ t => t
  | WeatherResponse _ => "weather"
  | NewsResponse _ => "news"
  | ReminderSetResponse _ => "reminder_set"
  end.

Definition response_text (r : response_data) : str :=
  match r with
  | Plain t _ => t
  | WeatherResponse w => w_text w
  | NewsResponse n => n_text n
  | ReminderSetResponse r => rr_text r
  end.

Definition reminder_alert (r : reminder_data) : response_data :=
  Plain ("Reminder: " ++ text r) "reminder_alert".

(** The handler call of the selected branch; [now] is the clock reading of
    the branch. *)
Definition execute (env : environment) (i : intent) (now : Z)
  : M response_data :=
  match i with
  | TimeQuery =>
      ret (Plain ("The current time is " ++ Datetime.strftime_I_M_p now) "time")
  | WeatherQuery location_to_check =>
      weather_response <- lift (get_weather_data env location_to_check) ;;
      ret (WeatherResponse weather_response)
  | NewsQuery query => ret (NewsResponse (get_news_data env query))
  | SetReminder reminder_text time_str =>
      reminder_response <- set_reminder_data reminder_text time_str now ;;
      ret (ReminderSetResponse reminder_response)
  | ReminderWithoutMessage =>
      ret (Plain "I found a time, but couldn't find a reminder message. Please use a phrase like 'remind me in 5 minutes to call mom.'" "error")
  | ReminderWithoutTime =>
      ret (Plain "To set a reminder, please use a phrase like, 'set a reminder to take out the trash in 5 minutes'." "error")
  | Confirmation => ret (Plain "Okay, displaying the links now." "news_confirmation")
  | Goodbye => ret (Plain "Goodbye! Have a great day." "goodbye")
  | Unknown =>
      ret (Plain "I'm sorry, I don't understand that command yet. Please try again." "error")
  end.

(** The intent branch of [process_command] on the lowercased command. *)
Definition dispatch (env : environment) (command : str) (now : Z)
  : M response_data :=
  i <- lift (classify command) ;; execute env i now.

(** ** The due sweep *)

(** [current_time >= datetime.datetime.fromisoformat(reminder["time"])] *)
Definition is_due (current_time : Z) (r : reminder_data) : bool :=
  (time r <=? current_time)%Z.

(** One turn of the loop [for reminder in reminders]; the state of the loop
    is [response_data] and [reminders_to_remove]. *)
Definition scan_step (current_time : Z)
  (acc : response_data * list reminder_data) (r : reminder_data)
  : response_data * list reminder_data :=
  if is_due current_time r then (reminder_alert r, snd acc ++ [r]) else acc.

Definition scan (current_time : Z) (reminders : store)
  (response_data0 : response_data) : response_data * list reminder_data :=
  fold_left (scan_step current_time) reminders (response_data0, []).

(** [for reminder in reminders_to_remove: reminders.remove(reminder)] *)
Fixpoint remove_each (reminders_to_remove : list reminder_data) : M unit :=
  match reminders_to_remove with
  | [] => ret tt
  | r :: rest => remove r ;; remove_each rest
  end.

(** The block that closes [process_command]: scan, then remove. *)
Definition check_reminders (current_time : Z) (response_data0 : response_data)
  : M response_data :=
  fun reminders =>
    let '(response_data1, reminders_to_remove) :=
      scan current_time reminders response_data0 in
    (remove_each reminders_to_remove ;; ret response_data1) reminders.

(** ** The endpoint *)

(** [process_command] on the request body [{"command": raw}]: the response
    and its HTTP status, and the reminder list the call leaves.  [now] is the
    clock reading inside the branch, [current_time] the later one of the
    sweep. *)
Definition process_command (env : environment) (raw : str)
  (now current_time : Z) (reminders : store)
  : (response_data * Z) * store :=
  let command := Py.lower raw in
  match (response_data0 <- dispatch env command now ;;
         check_reminders current_time response_data0) reminders with
  | (Returned r, reminders') => ((r, 200%Z), reminders')
  | (Raised e, reminders') =>
      ((Plain ("An error occurred: " ++ exn_text env e) "error", 500%Z),
       reminders')
  end.

(** A quiet world for worked examples: no credentials, no network; the
    class name of an exception stands for its [str(e)]. *)
Definition offline : environment :=
  mkEnvironment None "2024-01-01"
    (fun _ => RequestFailed "offline")
    (fun _ => Returned (mkWeatherResult "Please set your OpenWeatherMap API key." None))
    (fun e => match e with
              | ValueError => "ValueError"
              | IndexError => "IndexError"
              | OverflowError => "OverflowError"
              | OtherError name => name
              end).

(** ** Histories of the reminder list

    Between two sweeps the list only grows, by the [append] of the handler.
    [replay] runs such a history and collects, in [fired], the reminders
    that the sweeps put on [reminders_to_remove]. *)

Inductive event : Type :=
| Sweep (current_time : Z)
| Insert (r : reminder_data).

Definition no_response : response_data := Plain [] [].

Fixpoint replay (events : list event) (reminders : store)
  (fired : list reminder_data) : list reminder_data * store :=
  match events with
  | [] => (fired, reminders)
  | Sweep current_time :: rest =>
      replay rest
        (snd (check_reminders current_time no_response reminders))
        (fired ++ snd (scan current_time reminders no_response))
  | Insert r :: rest => replay rest (snd (append r reminders)) fired
  end.

Fixpoint inserted (events : list event) : list reminder_data :=
  match events with
  | [] => []
  | Sweep _ :: rest => inserted rest
  | Insert r :: rest => r :: inserted rest
  end.

(** ** What a pattern matches

    The texts a pattern of [Re.regex] denotes; [Re.rmatch] only ever
    consumes such a text. *)

Inductive matches : Re.regex -> str -> Prop :=
| matches_class (p : ascii -> bool) (c : ascii) :
    p c = true -> matches (Re.Class p) [c]
| matches_cat (r1 r2 : Re.regex) (a b : str) :
    matches r1 a -> matches r2 b -> matches (Re.Cat r1 r2) (a ++ b)
| matches_alt_left (r1 r2 : Re.regex) (a : str) :
    matches r1 a -> matches (Re.Alt r1 r2) a
| matches_alt_right (r1 r2 : Re.regex) (a : str) :
    matches r2 a -> matches (Re.Alt r1 r2) a
| matches_opt_some (r : Re.regex) (a : str) :
    matches r a -> matches (Re.Opt r) a
| matches_opt_none (r : Re.regex) : matches (Re.Opt r) []
| matches_star (p : ascii -> bool) (a : str) :
    Forall (fun c => p c = true) a -> matches (Re.Star p) a.

(** A world for worked examples in which the news search finds two
    articles. *)
Definition newsroom : environment :=
  mkEnvironment (Some ("test-key" : str)) "2024-01-01"
    (fun _ => Reply (Some ("ok" : str))
                (Some [mkArticle "Rain ahead" "https://example.org/1";
                       mkArticle "Sun later" "https://example.org/2"]))
    (get_weather_data offline) (exn_text offline).


(** The four units the reminder pattern can end with. *)
Definition time_units : list str :=
  strs ["second"; "seconds"; "minute"; "minutes"].

(** The response types the endpoint can answer with. *)
Definition response_types : list str :=
  strs ["error"; "time"; "weather"; "news"; "reminder_set";
        "news_confirmation"; "goodbye"; "reminder_alert"].

(** The shape of [strftime("%I:%M %p")]: two digits, a colon, two digits,
    a space and [AM] or [PM]. *)
Definition is_clock_text (s : str) : bool :=
  match s with
  | [h1; h2; colon; m1; m2; space; half; m] =>
      (Py.isdigit h1 && Py.isdigit h2 && Ascii.eqb colon ":" &&
       Py.isdigit m1 && Py.isdigit m2 && Ascii.eqb space " " &&
       (Ascii.eqb half "A" || Ascii.eqb half "P") && Ascii.eqb m "M")%bool
  | _ => false
  end.

(** ** The weather lookup

    [get_city_coords] and [get_weather_data].  The replies of the two
    OpenWeatherMap endpoints are taken in the shape the code reads them:
    numbers arrive already rendered, as the text that the f-strings of the
    source put in their place ([str(x)], and [format(x, ".1f")] for the
    temperature). *)

Module Weather.

Definition WEATHER_LOCATION : str := "New Delhi".

(** An element of the geocoding reply; [None] for an absent ["lat"] or
    ["lon"]. *)
Record geo_entry : Type := mkGeoEntry { lat : option str; lon : option str }.

(** [requests.get] on the geocoding endpoint: a [RequestException], or the
    JSON list. *)
Inductive geocode_reply : Type :=
| GeoFailed
| GeoList (data : list geo_entry).

(** [data["main"]]: [temp] is the entry rendered with one decimal place,
    [main_humidity] and [main_pressure] the entries as [str] renders them;
    [None] for an absent entry. *)
Record main_data : Type := mkMain {
  temp : option str;
  main_humidity : option str;
  main_pressure : option str
}.

(** An element of [data["weather"]]. *)
Record weather_entry : Type :=
  mkWeatherEntry { entry_description : option str }.

(** The body of the current-conditions reply: [cod] is the entry ["cod"]
    when it is a string, [main] and [weather] are [None] when the key is
    absent. *)
Record conditions : Type := mkConditions {
  cod : option str;
  main : option main_data;
  weather : option (list weather_entry)
}.

(** [requests.get] on the current-conditions endpoint: a
    [RequestException] whose text is [error_text], or the JSON body. *)
Inductive conditions_reply : Type :=
| ConditionsFailed (error_text : str)
| Conditions (data : conditions).

Record world : Type := mkWorld {
  (** [os.getenv("OPENWEATHER_API_KEY")] *)
  OPENWEATHER_API_KEY : option str;
  geocode_get : str -> geocode_reply;
  conditions_get : str -> conditions_reply
}.

(** The five detail entries of a successful lookup; the description is
    [None] when the reply has none. *)
Record details : Type := mkDetails {
  d_location : str;
  d_temperature : str;
  d_humidity : str;
  d_pressure : str;
  d_description : option str
}.

(** The dict that [get_weather_data] returns. *)
Record report : Type :=
  mkReport { report_text : str; report_details : option details }.

(** [f"{x}"] for an optional entry. *)
Definition str_of_optional (o : option str) : str :=
  match o with
  | Some s => s
  | None => "None"
  end.

(** [get_city_coords(city_name)]: [None], or the pair [(lat, lon)]. *)
Definition get_city_coords (w : world) (city_name : str)
  : option (option str * option str) :=
  match truthy (OPENWEATHER_API_KEY w) with
  | None => None
  | Some key =>
      let base_url : str := "https://api.openweathermap.org/geo/1.0/direct?" in
      let complete_url :=
        base_url ++ "q=" ++ city_name ++ "&limit=1&appid=" ++ key in
      match geocode_get w complete_url with
      | GeoList (location_data :: _) =>
          Some (lat location_data, lon location_data)
      | GeoList [] => None
      | GeoFailed => None
      end
  end.

(** The URL of the current-conditions request. *)
Definition conditions_url (key location_to_use : str)
  (coords : option (option str * option str)) : str :=
  let base_url : str := "https://api.openweathermap.org/data/2.5/weather?" in
  match coords with
  | Some (lat, lon) =>
      base_url ++ "lat=" ++ str_of_optional lat ++ "&lon=" ++
      str_of_optional lon ++ "&appid=" ++ key ++ "&units=metric"
  | None =>
      base_url ++ "q=" ++ location_to_use ++ "&appid=" ++ key ++
      "&units=metric"
  end.

Definition degrees_celsius : str :=
  [" "%char; ascii_of_nat 194; ascii_of_nat 176; "C"%char].

(** [get_weather_data(location)] *)
Definition get_weather_data (w : world) (location : option str)
  : outcome report :=
  match truthy (OPENWEATHER_API_KEY w) with
  | None => Returned (mkReport "Please set your OpenWeatherMap API key." None)
  | Some key =>
      let location_to_use :=
        match truthy location with
        | Some l => l
        | None => WEATHER_LOCATION
        end in
      let coords := get_city_coords w location_to_use in
      let complete_url := conditions_url key location_to_use coords in
      match conditions_get w complete_url with
      | Conditions data =>
          let not_found :=
            match cod data with Some c => Py.eqb c "404" | None => false end in
          if negb not_found then
            match main data with
            | None => Raised (OtherError "KeyError")
            | Some main_data =>
                match weather data with
                | None => Raised (OtherError "KeyError")
                | Some [] => Raised IndexError
                | Some (weather_data :: _) =>
                    let humidity :=
                      match main_humidity main_data with
                      | Some h => h
                      | None => "not available" : str
                      end in
                    let pressure :=
                      match main_pressure main_data with
                      | Some p => p
                      | None => "not available" : str
                      end in
                    let weather_description := entry_description weather_data in
                    match temp main_data with
                    | None => Raised (OtherError "TypeError")
                    | Some temperature =>
                        Returned
                          (mkReport
                             ("The temperature in " ++ location_to_use ++
                              " is " ++ temperature ++
                              " degrees Celsius, with " ++
                              str_of_optional weather_description ++
                              ". The humidity is " ++ humidity ++
                              " percent, and the atmospheric pressure is " ++
                              pressure ++ " hectopascals.")
                             (Some (mkDetails location_to_use
                                      (temperature ++ degrees_celsius)
                                      (humidity ++ "%")
                                      (pressure ++ " hPa")
                                      weather_description)))
                    end
                end
            end
          else
            Returned
              (mkReport
                 ("I couldn't find the weather for " ++ location_to_use ++ ".")
                 None)
      | ConditionsFailed e =>
          Returned
            (mkReport
               ("Sorry, I had trouble getting the weather. The error was: " ++ e)
               None)
      end
  end.

End Weather.

(** The weather lookup of an environment is the embedded one: same
    exceptions, same text, and the same detail entries when the embedded
    lookup has them. *)
Definition serves (env : environment) (w : Weather.world) : Prop :=
  forall loc,
    match Weather.get_weather_data w loc with
    | Raised e => get_weather_data env loc = Raised e
    | Returned r =>
        match Weather.report_details r with
        | None =>
            get_weather_data env loc =
            Returned (mkWeatherResult (Weather.report_text r) None)
        | Some d =>
            exists description,
              get_weather_data env loc =
              Returned
                (mkWeatherResult (Weather.report_text r)
                   (Some (mkWeatherDetails (Weather.d_location d)
                            (Weather.d_temperature d) (Weather.d_humidity d)
                            (Weather.d_pressure d) description)))
        end
    end.

(** A world for worked examples: a key is configured, geocoding finds
    nothing and the current-conditions request times out. *)
Definition unreachable : Weather.world :=
  Weather.mkWorld (Some ("test-key" : str))
    (fun _ => Weather.GeoList [])
    (fun _ => Weather.ConditionsFailed "timed out").

(** The environment whose weather lookup is the embedded one in the world
    [unreachable]. *)
Definition offline_weather : environment :=
  mkEnvironment None "2024-01-01"
    (fun _ => RequestFailed "offline")
    (fun loc =>
       match Weather.get_weather_data unreachable loc with
       | Returned r => Returned (mkWeatherResult (Weather.report_text r) None)
       | Raised e => Raised e
       end)
    (exn_text offline).

(** A world for worked examples in which both endpoints answer. *)
Definition sunny : Weather.world :=
  Weather.mkWorld (Some ("test-key" : str))
    (fun _ => Weather.GeoList [Weather.mkGeoEntry (Some ("35.68" : str))
                                 (Some ("139.69" : str))])
    (fun _ => Weather.Conditions
                (Weather.mkConditions None
                   (Some (Weather.mkMain (Some ("21.5" : str))
                            (Some ("40" : str)) None))
                   (Some [Weather.mkWeatherEntry (Some ("clear sky" : str))]))).

(** [location if location else WEATHER_LOCATION] *)
Definition location_to_use (location : option str) : str :=
  match truthy location with
  | Some l => l
  | None => Weather.WEATHER_LOCATION
  end.

Unset Implicit Arguments.

(** * Properties *)

(** ** Strings *)

Section StringFacts.

Lemma startswith_app (p t : str) : Py.startswith p (p ++ t) = true.
Proof.
  induction p as [|c p IH]; simpl; [reflexivity|].
  now rewrite Ascii.eqb_refl.
Qed.

Lemma startswith_inv (p s : str) :
  Py.startswith p s = true -> s = p ++ skipn (length p) s.
Proof.
  revert s; induction p as [|c p IH]; intros [|d s] H; simpl in *;
    try reflexivity; try discriminate.
  apply andb_true_iff in H as [Hc Hp].
  apply Ascii.eqb_eq in Hc; subst d.
  f_equal; now apply IH.
Qed.

Lemma contains_unfold (p s : str) :
  Py.contains p s =
  (Py.startswith p s ||
   match s with [] => false | _ :: s' => Py.contains p s' end)%bool.
Proof. destruct s; reflexivity. Qed.

Lemma contains_app (a p b : str) : Py.contains p (a ++ p ++ b) = true.
Proof.
  induction a as [|c a IH].
  - simpl app. rewrite contains_unfold, startswith_app. reflexivity.
  - simpl. rewrite IH. apply orb_true_r.
Qed.

Lemma contains_tail (a b : str) : Py.contains b (a ++ b) = true.
Proof.
  pose proof (contains_app a b []) as H. now rewrite app_nil_r in H.
Qed.

Lemma contains_inv (p s : str) :
  Py.contains p s = true -> exists a b, s = a ++ p ++ b.
Proof.
  induction s as [|c s IH]; rewrite contains_unfold; intros H;
    apply orb_true_iff in H as [H|H].
  - exists [], (skipn (length p) []). now apply startswith_inv.
  - discriminate.
  - exists [], (skipn (length p) (c :: s)). now apply startswith_inv.
  - destruct (IH H) as (a & b & ->). now exists (c :: a), b.
Qed.

Lemma contains_trans (m p s : str) :
  Py.contains m p = true -> Py.contains p s = true -> Py.contains m s = true.
Proof.
  intros Hm Hp.
  apply contains_inv in Hm as (a & b & ->).
  apply contains_inv in Hp as (a' & b' & ->).
  replace (a' ++ (a ++ m ++ b) ++ b') with ((a' ++ a) ++ m ++ (b ++ b'))
    by (now rewrite <- !app_assoc).
  apply contains_app.
Qed.

Lemma contains_refl (s : str) : Py.contains s s = true.
Proof.
  rewrite contains_unfold.
  rewrite <- (app_nil_r s) at 2. now rewrite startswith_app.
Qed.

Lemma split_once_inv (sep s a b : str) :
  Py.split_once sep s = Some (a, b) -> s = a ++ sep ++ b.
Proof.
  revert a; induction s as [|c s IH]; intros a; simpl.
  - destruct (Py.startswith sep []) eqn:E; [|discriminate].
    intros [= <- <-]. now apply startswith_inv.
  - destruct (Py.startswith sep (c :: s)) eqn:E.
    + intros [= <- <-]. now apply startswith_inv.
    + destruct (Py.split_once sep s) as [[a' b']|]; [|discriminate].
      intros [= <- <-]. simpl. f_equal. now apply IH.
Qed.

Lemma lstrip_suffix (s : str) : exists a, s = a ++ Py.lstrip s.
Proof.
  induction s as [|c s [a IH]]; simpl.
  - now exists [].
  - destruct (Py.isspace c).
    + exists (c :: a). simpl. now f_equal.
    + now exists [].
Qed.

Lemma strip_infix (s : str) : Py.contains (Py.strip s) s = true.
Proof.
  unfold Py.strip, Py.rstrip.
  destruct (lstrip_suffix s) as [a Ha].
  destruct (lstrip_suffix (rev (Py.lstrip s))) as [b Hb].
  apply (f_equal (@rev ascii)) in Hb.
  rewrite rev_involutive, rev_app_distr in Hb.
  rewrite Ha at 2. rewrite Hb at 2.
  apply contains_app.
Qed.

Lemma lower_char_idem (c : ascii) :
  Py.lower_char (Py.lower_char c) = Py.lower_char c.
Proof. destruct c as [[] [] [] [] [] [] [] []]; reflexivity. Qed.

Lemma lower_idem (s : str) : Py.lower (Py.lower s) = Py.lower s.
Proof.
  unfold Py.lower. rewrite map_map.
  apply map_ext. intros c; apply lower_char_idem.
Qed.

Lemma lower_app (a b : str) : Py.lower (a ++ b) = Py.lower a ++ Py.lower b.
Proof. apply map_app. Qed.

Lemma lower_fixed (s : str) :
  Py.lower s = s <-> Forall (fun c => Py.lower_char c = c) s.
Proof.
  induction s as [|c s IH]; simpl; split; intros H.
  - constructor.
  - reflexivity.
  - injection H as Hc Hs. constructor; [assumption | now apply IH].
  - inversion H as [|? ? Hc Hs]; subst. rewrite Hc. f_equal. now apply IH.
Qed.

(** A piece of a lowercased text is itself lowercased. *)
Lemma lower_infix (m s : str) :
  Py.contains m s = true -> Py.lower s = s -> Py.lower m = m.
Proof.
  intros H Hs. apply contains_inv in H as (a & b & ->).
  apply lower_fixed in Hs. apply lower_fixed.
  apply Forall_app in Hs as [_ Hs].
  now apply Forall_app in Hs as [Hs _].
Qed.

End StringFacts.

(** ** The reminder list *)

Section StoreFacts.

Lemma str_eqb_eq (a b : str) : Py.eqb a b = true <-> a = b.
Proof.
  revert b; induction a as [|x a IH]; intros [|y b]; simpl; split;
    try discriminate; try reflexivity; intros H.
  - apply andb_true_iff in H as [Hx Ha].
    apply Ascii.eqb_eq in Hx. apply IH in Ha. now subst.
  - injection H as -> ->. rewrite Ascii.eqb_refl. now apply IH.
Qed.

Lemma reminder_eqb_eq (a b : reminder_data) :
  reminder_eqb a b = true <-> a = b.
Proof.
  unfold reminder_eqb. destruct a as [ta xa], b as [tb xb]; simpl.
  rewrite andb_true_iff, Z.eqb_eq, str_eqb_eq.
  split; [intros [-> ->]; reflexivity | intros [= -> ->]; now split].
Qed.

Lemma reminder_eq_dec (a b : reminder_data) : {a = b} + {a <> b}.
Proof.
  destruct (reminder_eqb a b) eqn:E.
  - left. now apply reminder_eqb_eq.
  - right. intros H. apply reminder_eqb_eq in H. congruence.
Defined.

Variable current_time : Z.

Local Abbreviation due := (is_due current_time).
Local Abbreviation pending := (fun r => negb (is_due current_time r)).

Lemma last_cons_default (A : Type) (l : list A) (a d : A) :
  last (a :: l) d = last l a.
Proof.
  revert a d; induction l as [|b l IH]; intros a d; [reflexivity|].
  change (last (a :: b :: l) d) with (last (b :: l) d).
  now rewrite (IH b d), (IH b a).
Qed.

(** The loop leaves the alert of the last due reminder (or the response it
    started from) and has collected the due reminders in list order. *)
Lemma scan_fold (l : store) (r0 : response_data) (acc : list reminder_data) :
  fold_left (scan_step current_time) l (r0, acc) =
  (last (map reminder_alert (filter due l)) r0, acc ++ filter due l).
Proof.
  revert r0 acc; induction l as [|x l IH]; intros r0 acc; simpl.
  - now rewrite app_nil_r.
  - unfold scan_step at 2. destruct (due x) eqn:E; simpl snd.
    + rewrite IH. rewrite <- app_assoc. simpl app.
      change (map reminder_alert (x :: filter due l))
        with (reminder_alert x :: map reminder_alert (filter due l)).
      now rewrite last_cons_default.
    + apply IH.
Qed.

Lemma scan_eq (l : store) (r0 : response_data) :
  scan current_time l r0 =
  (last (map reminder_alert (filter due l)) r0, filter due l).
Proof. unfold scan. now rewrite scan_fold. Qed.

Lemma remove_first_skip (kept : store) (x : reminder_data) (l : store) :
  Forall (fun k => due k = false) kept -> due x = true ->
  remove_first x (kept ++ x :: l) = Some (kept ++ l).
Proof.
  intros Hk Hx. induction Hk as [|k kept Hk _ IH]; simpl.
  - replace (reminder_eqb x x) with true; [reflexivity|].
    symmetry. now apply reminder_eqb_eq.
  - destruct (reminder_eqb k x) eqn:E.
    + apply reminder_eqb_eq in E. congruence.
    + now rewrite IH.
Qed.

(** Removing the collected reminders one by one never fails and leaves
    exactly the reminders that were not due. *)
Lemma remove_each_due (l kept : store) :
  Forall (fun k => due k = false) kept ->
  remove_each (filter due l) (kept ++ l) =
  (Returned tt, kept ++ filter pending l).
Proof.
  revert kept; induction l as [|x l IH]; intros kept Hk; simpl.
  - reflexivity.
  - destruct (due x) eqn:E; simpl.
    + unfold bind, remove. rewrite remove_first_skip by assumption.
      now apply IH.
    + replace (kept ++ x :: l) with ((kept ++ [x]) ++ l)
        by (now rewrite <- app_assoc).
      rewrite IH.
      * now rewrite <- app_assoc.
      * apply Forall_app; split; [assumption|]. now constructor.
Qed.

(** The sweep always returns: it answers with the alert of the last due
    reminder, if any, and keeps exactly the reminders that are not due. *)
Lemma check_reminders_eq (r0 : response_data) (reminders : store) :
  check_reminders current_time r0 reminders =
  (Returned (last (map reminder_alert (filter due reminders)) r0),
   filter pending reminders).
Proof.
  unfold check_reminders. rewrite scan_eq.
  unfold bind.
  change reminders with ([] ++ reminders) at 2.
  rewrite remove_each_due by constructor.
  reflexivity.
Qed.

Lemma filter_none (A : Type) (f : A -> bool) (l : list A) :
  (forall x, In x l -> f x = false) -> filter f l = [].
Proof.
  induction l as [|x l IH]; intros H; simpl; [reflexivity|].
  rewrite (H x) by (now left). apply IH. intros y Hy. apply H. now right.
Qed.

Lemma filter_all (A : Type) (f : A -> bool) (l : list A) :
  (forall x, In x l -> f x = true) -> filter f l = l.
Proof.
  induction l as [|x l IH]; intros H; simpl; [reflexivity|].
  rewrite (H x) by (now left). f_equal. apply IH. intros y Hy. apply H. now right.
Qed.

End StoreFacts.

(** ** The due sweep *)

Section Sweep.

Lemma count_filter_split (f : reminder_data -> bool) (l : store)
  (r : reminder_data) :
  (count_occ reminder_eq_dec (filter f l) r +
   count_occ reminder_eq_dec (filter (fun x => negb (f x)) l) r =
   count_occ reminder_eq_dec l r)%nat.
Proof.
  induction l as [|x l IH]; simpl; [reflexivity|].
  destruct (f x); simpl; destruct (reminder_eq_dec x r); lia.
Qed.

Lemma replay_counts (events : list event) (reminders : store)
  (fired : list reminder_data) (r : reminder_data) :
  (count_occ reminder_eq_dec (fst (replay events reminders fired)) r +
   count_occ reminder_eq_dec (snd (replay events reminders fired)) r =
   count_occ reminder_eq_dec fired r +
   count_occ reminder_eq_dec reminders r +
   count_occ reminder_eq_dec (inserted events) r)%nat.
Proof.
  revert reminders fired; induction events as [|[t|x] events IH];
    intros reminders fired; simpl replay; simpl inserted.
  - simpl. lia.
  - rewrite IH, check_reminders_eq, scan_eq. simpl snd.
    rewrite count_occ_app.
    pose proof (count_filter_split (is_due t) reminders r). lia.
  - rewrite IH. unfold append. simpl snd.
    rewrite count_occ_app. simpl. destruct (reminder_eq_dec x r); lia.
Qed.

Lemma last_alert_cases (l : list reminder_data) (r0 : response_data) :
  last (map reminder_alert l) r0 = r0 \/
  response_type (last (map reminder_alert l) r0) = "reminder_alert".
Proof.
  revert r0; induction l as [|x l IH]; intros r0; [now left|].
  change (map reminder_alert (x :: l))
    with (reminder_alert x :: map reminder_alert l).
  rewrite last_cons_default.
  destruct (IH (reminder_alert x)) as [-> | H]; right; [reflexivity | exact H].
Qed.

Lemma last_alert_snoc (l : list reminder_data) (r : reminder_data)
  (r0 : response_data) :
  last (map reminder_alert (l ++ [r])) r0 = reminder_alert r.
Proof. rewrite map_app. simpl. apply last_last. Qed.

(** What [process_command] returns once the branch has returned. *)
Lemma process_command_returned (env : environment) (raw : str)
  (now current_time : Z) (reminders reminders' : store) (r0 : response_data) :
  dispatch env (Py.lower raw) now reminders = (Returned r0, reminders') ->
  process_command env raw now current_time reminders =
  ((last (map reminder_alert (filter (is_due current_time) reminders')) r0,
    200%Z),
   filter (fun r => negb (is_due current_time r)) reminders').
Proof.
  intros H. unfold process_command, bind. rewrite H.
  now rewrite check_reminders_eq.
Qed.

(** What [process_command] returns when the branch raises. *)
Lemma process_command_raised (env : environment) (raw : str)
  (now current_time : Z) (reminders reminders' : store) (e : exn) :
  dispatch env (Py.lower raw) now reminders = (Raised e, reminders') ->
  process_command env raw now current_time reminders =
  ((Plain ("An error occurred: " ++ exn_text env e) "error", 500%Z),
   reminders').
Proof. intros H. unfold process_command, bind. now rewrite H. Qed.

End Sweep.

(** C8. When no stored reminder is due, the sweep raises no alert: it
    returns the response it was given and leaves the reminder list as it
    is, so the list keeps its length; a call of [process_command] whose
    branch returned then answers with the response of the branch. *)
Theorem sweep_without_due_is_identity
  (current_time : Z) (r0 : response_data) (reminders : store) :
  (forall r, In r reminders -> (current_time < time r)%Z) ->
  check_reminders current_time r0 reminders = (Returned r0, reminders) /\
  length (snd (check_reminders current_time r0 reminders)) = length reminders /\
  (forall env raw now before,
     dispatch env (Py.lower raw) now before = (Returned r0, reminders) ->
     process_command env raw now current_time before =
       ((r0, 200%Z), reminders)).
Proof.
  intros Hnone.
  assert (Hf : filter (is_due current_time) reminders = []).
  { apply filter_none. intros r Hr. unfold is_due.
    apply Z.leb_gt. now apply Hnone. }
  assert (Hp : filter (fun r => negb (is_due current_time r)) reminders
               = reminders).
  { apply filter_all. intros r Hr. unfold is_due.
    apply negb_true_iff, Z.leb_gt. now apply Hnone. }
  assert (Hc : check_reminders current_time r0 reminders
               = (Returned r0, reminders)).
  { rewrite check_reminders_eq, Hf, Hp. reflexivity. }
  split; [exact Hc|]. split; [now rewrite Hc|].
  intros env raw now before Hd.
  rewrite (process_command_returned env raw now current_time _ _ _ Hd), Hf, Hp.
  reflexivity.
Qed.

Lemma sweep_without_due_is_identity_witness :
  (forall r, In r [mkReminder 50 "tea"; mkReminder 60 "nap"] ->
     (20 < time r)%Z) /\
  check_reminders 20%Z (Plain "Goodbye! Have a great day." "goodbye")
    [mkReminder 50 "tea"; mkReminder 60 "nap"] =
  (Returned (Plain "Goodbye! Have a great day." "goodbye"),
   [mkReminder 50 "tea"; mkReminder 60 "nap"]).
Proof.
  assert (H : forall r, In r [mkReminder 50 "tea"; mkReminder 60 "nap"] ->
                (20 < time r)%Z).
  { intros r [<- | [<- | []]]; simpl; lia. }
  split; [exact H|].
  apply (sweep_without_due_is_identity 20%Z
           (Plain "Goodbye! Have a great day." "goodbye")
           [mkReminder 50 "tea"; mkReminder 60 "nap"] H).
Defined.

(** C3. One sweep removes every reminder that is due when it runs: the
    call returns, what it leaves is the list of the reminders that were not
    due, and no due reminder is among them.  Over any history of sweeps and
    insertions, every stored occurrence of a reminder is fired at most once:
    what has fired and what is still stored add up to what was stored at
    the start and inserted since. *)
Theorem due_reminders_fire_once
  (current_time : Z) (r0 : response_data) (reminders : store) :
  (exists r1,
     check_reminders current_time r0 reminders =
     (Returned r1, filter (fun r => negb (is_due current_time r)) reminders)) /\
  (forall r, In r reminders -> (time r <= current_time)%Z ->
     ~ In r (snd (check_reminders current_time r0 reminders))) /\
  (forall events r,
     (count_occ reminder_eq_dec (fst (replay events reminders [])) r +
      count_occ reminder_eq_dec (snd (replay events reminders [])) r =
      count_occ reminder_eq_dec reminders r +
      count_occ reminder_eq_dec (inserted events) r)%nat).
Proof.
  split; [|split].
  - eexists. apply check_reminders_eq.
  - intros r _ Hdue Hin. rewrite check_reminders_eq in Hin. simpl in Hin.
    apply filter_In in Hin as [_ Hin].
    apply negb_true_iff in Hin. unfold is_due in Hin.
    apply Z.leb_gt in Hin. lia.
  - intros events r. rewrite replay_counts. reflexivity.
Qed.

Lemma due_reminders_fire_once_witness :
  ~ In (mkReminder 5 "tea")
      (snd (check_reminders 10%Z no_response
              [mkReminder 5 "tea"; mkReminder 50 "nap"; mkReminder 5 "tea"])).
Proof.
  destruct (due_reminders_fire_once 10%Z no_response
              [mkReminder 5 "tea"; mkReminder 50 "nap"; mkReminder 5 "tea"])
    as (_ & H & _).
  apply (H (mkReminder 5 "tea")).
  - left. reflexivity.
  - simpl. lia.
Defined.

(** C2, as the code has it.  When the branch of a command returns, the
    sweep runs on the list the branch leaves: the call answers with status
    200, the response is the alert of the last due reminder of that list if
    one is due and the response of the branch otherwise, and every due
    reminder is removed. *)
Theorem sweep_follows_returning_branch
  (env : environment) (raw : str) (now current_time : Z)
  (reminders reminders' : store) (r0 : response_data) :
  dispatch env (Py.lower raw) now reminders = (Returned r0, reminders') ->
  process_command env raw now current_time reminders =
    ((last (map reminder_alert (filter (is_due current_time) reminders')) r0,
      200%Z),
     filter (fun r => negb (is_due current_time r)) reminders') /\
  (forall earlier r,
     filter (is_due current_time) reminders' = earlier ++ [r] ->
     fst (fst (process_command env raw now current_time reminders)) =
     reminder_alert r) /\
  (forall r, In r (snd (process_command env raw now current_time reminders)) ->
     (current_time < time r)%Z).
Proof.
  intros Hd.
  rewrite (process_command_returned env raw now current_time _ _ _ Hd).
  split; [reflexivity|split].
  - intros earlier r ->. simpl. apply last_alert_snoc.
  - intros r Hin. simpl in Hin. apply filter_In in Hin as [_ Hin].
    apply negb_true_iff in Hin. now apply Z.leb_gt in Hin.
Qed.

Lemma sweep_follows_returning_branch_witness :
  process_command offline "ciao" 0%Z 10%Z
    [mkReminder 5 "tea"; mkReminder 50 "nap"; mkReminder 7 "call"] =
  ((Plain "Reminder: call" "reminder_alert", 200%Z), [mkReminder 50 "nap"]).
Proof.
  apply (sweep_follows_returning_branch offline "ciao" 0%Z 10%Z
           [mkReminder 5 "tea"; mkReminder 50 "nap"; mkReminder 7 "call"]
           [mkReminder 5 "tea"; mkReminder 50 "nap"; mkReminder 7 "call"]
           (Plain "Goodbye! Have a great day." "goodbye")).
  reflexivity.
Defined.

(** C2, as stated, fails: the branch of this command raises, the sweep is
    skipped, the answer is the status-500 error and the due reminder stays
    in the list. *)
Lemma sweep_skipped_counterexample :
  is_due 1000%Z (mkReminder 0 "tea") = true /\
  process_command offline "remind me in 99999999999999999999 seconds to x"
    1000%Z 1000%Z [mkReminder 0 "tea"] =
  ((Plain "An error occurred: OverflowError" "error", 500%Z),
   [mkReminder 0 "tea"]).
Proof. split; vm_compute; reflexivity. Qed.

(** ** The reminder branch *)

Section ReminderBranch.

Lemma dispatch_set_reminder (env : environment) (command : str) (now : Z)
  (reminders : store) (reminder_text time_str : str) :
  classify command = Returned (SetReminder reminder_text time_str) ->
  dispatch env command now reminders =
  match set_reminder_data reminder_text time_str now reminders with
  | (Returned response, reminders') =>
      (Returned (ReminderSetResponse response), reminders')
  | (Raised e, reminders') => (Raised e, reminders')
  end.
Proof.
  intros H. unfold dispatch, bind, lift. rewrite H. simpl.
  unfold bind. destruct (set_reminder_data _ _ _ _) as [[response|e] st];
    reflexivity.
Qed.

Lemma classify_set_reminder (command reminder_text time_str : str) :
  classify command = Returned (SetReminder reminder_text time_str) ->
  reminder_intent command = Returned (SetReminder reminder_text time_str).
Proof.
  unfold classify.
  repeat match goal with
         | |- context [if ?c then _ else _] => destruct c
         end; try discriminate; trivial.
Qed.

Lemma reminder_intent_inv (command reminder_text time_str : str) :
  reminder_intent command = Returned (SetReminder reminder_text time_str) ->
  Re.search reminder_pattern command = Some time_str /\
  Py.contains time_str command = true /\
  Py.contains reminder_text command = true.
Proof.
  unfold reminder_intent.
  destruct (Re.search reminder_pattern command) as [ts|]; [|discriminate].
  destruct (Py.split_once ts command) as [[before after]|] eqn:Es;
    [|discriminate].
  apply split_once_inv in Es.
  assert (Hafter : Py.contains (Py.strip after) command = true).
  { apply contains_trans with after; [apply strip_infix|].
    rewrite Es. rewrite app_assoc. apply contains_tail. }
  destruct (Py.contains " to " (Py.strip after)).
  - destruct (Py.split_once " to " (Py.strip after)) as [[pre message]|] eqn:Et;
      [|discriminate].
    apply split_once_inv in Et.
    destruct (Py.strip message) as [|c m] eqn:Em; [discriminate|].
    intros [= <- <-]. split; [reflexivity|split].
    + rewrite Es. apply contains_app.
    + apply contains_trans with (Py.strip after); [|exact Hafter].
      apply contains_trans with message.
      * rewrite <- Em. apply strip_infix.
      * rewrite Et. rewrite app_assoc. apply contains_tail.
  - destruct (Py.strip after) as [|c m] eqn:Em; [discriminate|].
    intros [= <- <-]. split; [reflexivity|split].
    + rewrite Es. apply contains_app.
    + exact Hafter.
Qed.

End ReminderBranch.

(** ** The reminder handler *)

Section Handler.

Variables (reminder_text time_str : str) (now : Z) (reminders : store).


Lemma set_reminder_data_minutes (minutes delta reminder_time : Z) :
  Py.contains "seconds" time_str = false ->
  Py.contains "minutes" time_str = true ->
  Py.int (Py.first_field time_str) = Some minutes ->
  timedelta (minutes * 60 * Datetime.microseconds_per_second) = Returned delta ->
  datetime_add now delta = Returned reminder_time ->
  set_reminder_data reminder_text time_str now reminders =
  (Returned
     (mkReminderResponse
        ("Okay, I will remind you to '" ++ reminder_text ++ "' in " ++
         Py.str_of_int minutes ++ " minutes.")
        (Some (mkReminder reminder_time reminder_text))),
   reminders ++ [mkReminder reminder_time reminder_text]).
Proof.
  intros Hs Hc Hi Ht Ha.
  unfold set_reminder_data, try_except, bind, int_or_raise, lift.
  rewrite Hs, Hc, Hi. unfold ret. rewrite Ht, Ha. reflexivity.
Qed.

Lemma set_reminder_data_unsupported :
  Py.contains "seconds" time_str = false ->
  Py.contains "minutes" time_str = false ->
  set_reminder_data reminder_text time_str now reminders =
  (Returned (mkReminderResponse unsupported_unit_text None), reminders).
Proof.
  intros Hs Hm. unfold set_reminder_data, try_except. now rewrite Hs, Hm.
Qed.

Lemma set_reminder_data_bad_time :
  (Py.contains "seconds" time_str || Py.contains "minutes" time_str)%bool
    = true ->
  Py.int (Py.first_field time_str) = None ->
  set_reminder_data reminder_text time_str now reminders =
  (Returned (mkReminderResponse bad_time_text None), reminders).
Proof.
  intros Hc Hi.
  unfold set_reminder_data, try_except, bind, int_or_raise.
  rewrite Hi.
  destruct (Py.contains "seconds" time_str); [reflexivity|].
  rewrite orb_false_l in Hc. rewrite Hc. reflexivity.
Qed.

(** Every way the handler can end. *)
Lemma set_reminder_data_cases :
  (exists n unit reminder_time,
     set_reminder_data reminder_text time_str now reminders =
     (Returned
        (mkReminderResponse
           ("Okay, I will remind you to '" ++ reminder_text ++ "' in " ++
            Py.str_of_int n ++ unit)
           (Some (mkReminder reminder_time reminder_text))),
      reminders ++ [mkReminder reminder_time reminder_text])) \/
  set_reminder_data reminder_text time_str now reminders =
    (Returned (mkReminderResponse unsupported_unit_text None), reminders) \/
  set_reminder_data reminder_text time_str now reminders =
    (Returned (mkReminderResponse bad_time_text None), reminders) \/
  set_reminder_data reminder_text time_str now reminders =
    (Raised OverflowError, reminders).
Proof.
  unfold set_reminder_data, try_except, bind, int_or_raise, lift.
  destruct (Py.contains "seconds" time_str).
  - destruct (Py.int (Py.first_field time_str)) as [n|]; unfold ret, raise;
      [|now right; right; left].
    destruct (timedelta _) as [d|e] eqn:Et.
    + destruct (datetime_add now d) as [t|e] eqn:Ea.
      * left. now exists n, (" seconds." : str), t.
      * unfold datetime_add in Ea. destruct (_ && _)%bool in Ea;
          [discriminate|]. injection Ea as <-. now right; right; right.
    + unfold timedelta in Et. destruct (_ && _)%bool in Et;
        [discriminate|]. injection Et as <-. now right; right; right.
  - destruct (Py.contains "minutes" time_str); [|now right; left].
    destruct (Py.int (Py.first_field time_str)) as [n|]; unfold ret, raise;
      [|now right; right; left].
    destruct (timedelta _) as [d|e] eqn:Et.
    + destruct (datetime_add now d) as [t|e] eqn:Ea.
      * left. now exists n, (" minutes." : str), t.
      * unfold datetime_add in Ea. destruct (_ && _)%bool in Ea;
          [discriminate|]. injection Ea as <-. now right; right; right.
    + unfold timedelta in Et. destruct (_ && _)%bool in Et;
        [discriminate|]. injection Et as <-. now right; right; right.
Qed.

End Handler.

(** C10. The handler appends to the reminder list exactly when it returns
    a confirmation that carries the created reminder: then the list has
    grown by that one record, whose text is the message; with either error
    result, and when the call raises, the list is as it was. *)
Theorem reminder_appended_iff_confirmed
  (reminder_text time_str : str) (now : Z) (reminders : store) :
  match set_reminder_data reminder_text time_str now reminders with
  | (Returned response, reminders') =>
      match reminder response with
      | Some r => reminders' = reminders ++ [r] /\ text r = reminder_text
      | None =>
          reminders' = reminders /\
          (rr_text response = unsupported_unit_text \/
           rr_text response = bad_time_text)
      end
  | (Raised _, reminders') => reminders' = reminders
  end.
Proof.
  destruct (set_reminder_data_cases reminder_text time_str now reminders)
    as [(n & unit & t & ->) | [-> | [-> | ->]]]; simpl; auto.
Qed.

(** C7, the part the code misses: an offset too large for [timedelta]
    makes the handler raise [OverflowError], which its [except] clause does
    not catch.  The leading integer parses, the reminder list is left as it
    was, and the command that reaches the handler with this time is
    answered with status 500. *)
Theorem set_reminder_data_raises_overflow
  (env : environment) (reminder_text : str) (now current_time : Z)
  (reminders : store) :
  Py.int (Py.first_field "99999999999999999999 seconds")
    = Some 99999999999999999999%Z /\
  set_reminder_data reminder_text "99999999999999999999 seconds" now reminders
    = (Raised OverflowError, reminders) /\
  classify "remind me in 99999999999999999999 seconds to x"
    = Returned (SetReminder "to x" "99999999999999999999 seconds") /\
  process_command env "remind me in 99999999999999999999 seconds to x"
    now current_time reminders
    = ((Plain ("An error occurred: " ++ exn_text env OverflowError) "error",
        500%Z),
       reminders).
Proof.
  split; [reflexivity|]. split; [reflexivity|]. split; [reflexivity|].
  apply process_command_raised. reflexivity.
Qed.

(** C9. When the handler, called by the reminder branch, returns one of its
    error results, the branch still labels the response [reminder_set]: the
    response of the call is that one, with status 200, unless the sweep
    replaces it with a reminder alert; it is never given the type
    [error]. *)
Theorem handler_error_labelled_reminder_set
  (env : environment) (raw : str) (now current_time : Z)
  (reminders reminders' : store) (reminder_text time_str : str)
  (response : reminder_response) :
  classify (Py.lower raw) = Returned (SetReminder reminder_text time_str) ->
  set_reminder_data reminder_text time_str now reminders =
    (Returned response, reminders') ->
  reminder response = None ->
  dispatch env (Py.lower raw) now reminders =
    (Returned (ReminderSetResponse response), reminders') /\
  response_type (ReminderSetResponse response) = "reminder_set" /\
  snd (fst (process_command env raw now current_time reminders)) = 200%Z /\
  (fst (fst (process_command env raw now current_time reminders)) =
     ReminderSetResponse response \/
   response_type (fst (fst (process_command env raw now current_time reminders)))
     = "reminder_alert").
Proof.
  intros Hc Hs _.
  assert (Hd : dispatch env (Py.lower raw) now reminders =
               (Returned (ReminderSetResponse response), reminders')).
  { rewrite (dispatch_set_reminder env _ now reminders _ _ Hc), Hs.
    reflexivity. }
  split; [exact Hd|]. split; [reflexivity|].
  rewrite (process_command_returned env raw now current_time _ _ _ Hd).
  split; [reflexivity|]. simpl. apply last_alert_cases.
Qed.

Lemma handler_error_labelled_reminder_set_witness :
  classify (Py.lower "Remind me in 5minutes to call mom") =
    Returned (SetReminder "to call mom" "5minutes") /\
  set_reminder_data "to call mom" "5minutes" 0%Z [] =
    (Returned (mkReminderResponse bad_time_text None), []) /\
  dispatch offline (Py.lower "Remind me in 5minutes to call mom") 0%Z [] =
    (Returned (ReminderSetResponse (mkReminderResponse bad_time_text None)),
     []).
Proof.
  split; [reflexivity|]. split; [reflexivity|].
  apply (handler_error_labelled_reminder_set offline
           "Remind me in 5minutes to call mom" 0%Z 0%Z [] []
           "to call mom" "5minutes" (mkReminderResponse bad_time_text None));
    reflexivity.
Defined.

(** C1, what the code does.  On a command that reads
    [remind me in 5 minutes to call mom] the branch calls the handler with
    the time ["5 minutes"] and the message ["to call mom"]: the text after
    the time is stripped before the test for [" to "], which therefore
    fails.  The reminder that is appended fires five minutes after [now]
    and carries that message. *)
Theorem remind_me_keeps_to_in_message
  (env : environment) (raw : str) (now : Z) (reminders : store) :
  Py.lower raw = "remind me in 5 minutes to call mom" ->
  (0 <= now)%Z -> (now + 300000000 <= Datetime.max)%Z ->
  classify (Py.lower raw) = Returned (SetReminder "to call mom" "5 minutes") /\
  dispatch env (Py.lower raw) now reminders =
    (Returned
       (ReminderSetResponse
          (mkReminderResponse
             "Okay, I will remind you to 'to call mom' in 5 minutes."
             (Some (mkReminder (now + 300000000) "to call mom")))),
     reminders ++ [mkReminder (now + 300000000) "to call mom"]).
Proof.
  intros -> Hlo Hhi.
  assert (Hc : classify "remind me in 5 minutes to call mom" =
               Returned (SetReminder "to call mom" "5 minutes"))
    by reflexivity.
  split; [exact Hc|].
  rewrite (dispatch_set_reminder env _ now reminders _ _ Hc).
  rewrite (set_reminder_data_minutes "to call mom" "5 minutes" now reminders
             5%Z 300000000%Z (now + 300000000)%Z); try reflexivity.
  unfold datetime_add.
  replace (0 <=? now + 300000000)%Z with true
    by (symmetry; apply Z.leb_le; lia).
  replace (now + 300000000 <=? Datetime.max)%Z with true
    by (symmetry; now apply Z.leb_le).
  reflexivity.
Qed.

Lemma remind_me_keeps_to_in_message_witness :
  Py.lower "Remind me in 5 minutes to call mom" =
    "remind me in 5 minutes to call mom" /\
  dispatch offline (Py.lower "Remind me in 5 minutes to call mom") 1000%Z [] =
    (Returned
       (ReminderSetResponse
          (mkReminderResponse
             "Okay, I will remind you to 'to call mom' in 5 minutes."
             (Some (mkReminder 300001000 "to call mom")))),
     [mkReminder 300001000 "to call mom"]).
Proof.
  split; [reflexivity|].
  apply (remind_me_keeps_to_in_message offline
           "Remind me in 5 minutes to call mom" 1000%Z []).
  - reflexivity.
  - lia.
  - unfold Datetime.max, Datetime.microseconds_per_day,
      Datetime.microseconds_per_second. lia.
Defined.

(** C4, as the code has it.  The command is lowercased once, and the branch
    works on that copy alone: the answer to a command is the answer to its
    lowercased text, the reminder pattern is searched in the lowercased
    text, and the time and the message handed to the handler are pieces of
    that text, so they contain no upper-case letter. *)
Theorem reminder_text_comes_from_lowercased_command
  (env : environment) (raw : str) (now current_time : Z) (reminders : store) :
  process_command env raw now current_time reminders =
    process_command env (Py.lower raw) now current_time reminders /\
  (forall reminder_text time_str,
     classify (Py.lower raw) = Returned (SetReminder reminder_text time_str) ->
     Re.search reminder_pattern (Py.lower raw) = Some time_str /\
     Py.contains time_str (Py.lower raw) = true /\
     Py.contains reminder_text (Py.lower raw) = true /\
     Py.lower time_str = time_str /\
     Py.lower reminder_text = reminder_text).
Proof.
  split.
  - unfold process_command. now rewrite lower_idem.
  - intros reminder_text time_str H.
    apply classify_set_reminder, reminder_intent_inv in H
      as (Hsearch & Hts & Hmsg).
    repeat split; try assumption.
    + apply lower_infix with (Py.lower raw); [exact Hts | apply lower_idem].
    + apply lower_infix with (Py.lower raw); [exact Hmsg | apply lower_idem].
Qed.

Lemma reminder_text_comes_from_lowercased_command_witness :
  classify (Py.lower "Remind me in 5 MINUTES Call Mom") =
    Returned (SetReminder "call mom" "5 minutes") /\
  Py.contains "call mom" (Py.lower "Remind me in 5 MINUTES Call Mom") = true.
Proof.
  split; [reflexivity|].
  destruct (reminder_text_comes_from_lowercased_command offline
              "Remind me in 5 MINUTES Call Mom" 0%Z 0%Z []) as [_ H].
  apply (H "call mom" "5 minutes"). reflexivity.
Defined.

(** C4, as stated, fails: the message and the time handed to the handler
    are in lower case, and neither occurs in the command as the user typed
    it. *)
Lemma original_casing_lost_counterexample :
  classify (Py.lower "Remind me in 5 MINUTES Call Mom") =
    Returned (SetReminder "call mom" "5 minutes") /\
  Py.contains "call mom" "Remind me in 5 MINUTES Call Mom" = false /\
  Py.contains "5 minutes" "Remind me in 5 MINUTES Call Mom" = false /\
  snd (process_command offline "Remind me in 5 MINUTES Call Mom" 0%Z 0%Z []) =
    [mkReminder 300000000 "call mom"].
Proof. repeat split. Qed.

(** ** The news lookup *)

Section News.

Variable env : environment.

Hypothesis key_set : exists c key, GUARDIAN_API_KEY env = Some (c :: key).

(** With zero results the test [status == "ok" and results] fails on the
    empty list, so the lookup takes the [else] branch; the inner test
    [if not articles] is never reached. *)
Lemma get_news_data_zero_results (query : option str) :
  (forall url, exists status,
     requests_get env url = Reply status (Some []) \/
     requests_get env url = Reply status None) ->
  get_news_data env query = mkNewsResult no_headlines_now_text [].
Proof.
  intros Hreply. destruct key_set as (c & key & Hkey).
  unfold get_news_data. rewrite Hkey. simpl truthy.
  destruct (truthy query) as [q|];
    [destruct (existsb (Py.eqb q) common_tags)|]; cbv beta iota;
    match goal with
    | |- context [requests_get env ?url] =>
        destruct (Hreply url) as [status [H | H]]; rewrite H
    end;
    now rewrite andb_false_r.
Qed.

End News.

(** C5, what the code does.  For the command
    [tell me the news about technology] the branch looks up the topic
    ["technology"]; when the search succeeds with zero results the response
    has type [news], an empty list of articles, and the text
    "I couldn't fetch any news headlines at the moment.", not the text the
    code keeps for an empty result list. *)
Theorem news_with_zero_results
  (env : environment) (now : Z) (reminders : store) :
  (exists c key, GUARDIAN_API_KEY env = Some (c :: key)) ->
  (forall url, requests_get env url = Reply (Some ("ok" : str)) (Some [])) ->
  classify "tell me the news about technology" =
    Returned (NewsQuery (Some ("technology" : str))) /\
  dispatch env "tell me the news about technology" now reminders =
    (Returned
       (NewsResponse
          (mkNewsResult "I couldn't fetch any news headlines at the moment." [])),
     reminders) /\
  no_headlines_now_text <> no_headlines_for_topic_text.
Proof.
  intros Hkey Hreply.
  assert (Hc : classify "tell me the news about technology" =
               Returned (NewsQuery (Some ("technology" : str))))
    by reflexivity.
  split; [exact Hc|]. split; [|discriminate].
  unfold dispatch, bind, lift. rewrite Hc. simpl execute. unfold ret.
  rewrite (get_news_data_zero_results env Hkey); [reflexivity|].
  intros url. exists (Some ("ok" : str)). left. apply Hreply.
Qed.

Lemma news_with_zero_results_witness :
  process_command
    (mkEnvironment (Some ("test-key" : str)) "2024-01-01"
       (fun _ => Reply (Some ("ok" : str)) (Some []))
       (get_weather_data offline) (exn_text offline))
    "tell me the news about technology" 0%Z 0%Z [] =
  ((NewsResponse
      (mkNewsResult "I couldn't fetch any news headlines at the moment." []),
    200%Z), []).
Proof.
  apply process_command_returned with (reminders' := []).
  apply (news_with_zero_results
           (mkEnvironment (Some ("test-key" : str)) "2024-01-01"
              (fun _ => Reply (Some ("ok" : str)) (Some []))
              (get_weather_data offline) (exn_text offline)) 0%Z []).
  - exists "t"%char, ("est-key" : str). reflexivity.
  - intros url. reflexivity.
Defined.

(** ** The weather branch *)

Section WeatherBranch.

Lemma find_unfold (p s : str) :
  Py.find p s =
  if Py.startswith p s then 0%Z
  else match s with
       | [] => (-1)%Z
       | _ :: s' => let i := Py.find p s' in
                    if (i <? 0)%Z then (-1)%Z else (i + 1)%Z
       end.
Proof. destruct s; reflexivity. Qed.

(** A pattern whose first character does not come back later in it cannot
    begin inside the text before one of its occurrences and run into it. *)
Lemma startswith_before_occurrence (q a w : str) (c0 : ascii) :
  ~ In c0 q ->
  Py.startswith q (a ++ c0 :: w) = true -> Py.startswith q a = true.
Proof.
  revert a; induction q as [|y q IH]; intros a Hnot H; [reflexivity|].
  destruct a as [|z a]; simpl in H.
  - apply andb_true_iff in H as [H _]. apply Ascii.eqb_eq in H.
    subst y. exfalso. apply Hnot. now left.
  - apply andb_true_iff in H as [Hy H]. simpl. rewrite Hy. simpl.
    apply IH; [|exact H]. intros Hin. apply Hnot. now right.
Qed.

Lemma startswith_no_overlap (c0 : ascii) (rest pre post : str) (c : ascii) :
  ~ In c0 rest ->
  Py.startswith (c0 :: rest) ((c :: pre) ++ (c0 :: rest) ++ post) = true ->
  Py.startswith (c0 :: rest) (c :: pre) = true.
Proof.
  intros Hnot H. simpl in H. apply andb_true_iff in H as [Hc H].
  simpl. rewrite Hc. simpl.
  now apply startswith_before_occurrence with (rest ++ post) c0.
Qed.

Lemma find_first_occurrence (c0 : ascii) (rest pre post : str) :
  ~ In c0 rest ->
  Py.contains (c0 :: rest) pre = false ->
  Py.find (c0 :: rest) (pre ++ (c0 :: rest) ++ post) = Z.of_nat (length pre).
Proof.
  intros Hnot. induction pre as [|c pre IH]; intros Hno.
  - change ([] ++ (c0 :: rest) ++ post) with ((c0 :: rest) ++ post).
    rewrite find_unfold. now rewrite startswith_app.
  - rewrite contains_unfold in Hno.
    apply orb_false_iff in Hno as [Hs Hno].
    rewrite find_unfold.
    destruct (Py.startswith (c0 :: rest) ((c :: pre) ++ (c0 :: rest) ++ post))
      eqn:E.
    + apply startswith_no_overlap in E; [congruence | exact Hnot].
    + change ((c :: pre) ++ (c0 :: rest) ++ post)
        with (c :: (pre ++ (c0 :: rest) ++ post)).
      cbv iota. rewrite (IH Hno). cbv zeta.
      replace (Z.of_nat (length pre) <? 0)%Z with false
        by (symmetry; apply Z.ltb_ge; lia).
      simpl length. lia.
Qed.

Lemma slice_from_after (pre p post : str) :
  Py.slice_from (Z.of_nat (length pre) + Z.of_nat (length p)) (pre ++ p ++ post)
  = post.
Proof.
  unfold Py.slice_from.
  replace (Z.of_nat (length pre) + Z.of_nat (length p) <? 0)%Z with false
    by (symmetry; apply Z.ltb_ge; lia).
  rewrite <- Nat2Z.inj_add, Nat2Z.id, app_assoc, <- length_app.
  rewrite skipn_app, skipn_all, Nat.sub_diag. reflexivity.
Qed.

Lemma weather_location_after (command keyword pre X : str)
  (c0 : ascii) (rest : str) :
  keyword = c0 :: rest -> ~ In c0 rest ->
  command = pre ++ keyword ++ X ->
  Py.contains keyword pre = false ->
  Py.strip (Py.slice_from
              (Py.find keyword command + Z.of_nat (length keyword)) command)
    = Py.strip X.
Proof.
  intros -> Hnot -> Hno.
  rewrite find_first_occurrence by assumption.
  now rewrite slice_from_after.
Qed.

End WeatherBranch.

(** C6, as the code has it.  Take a command whose lowercased text holds no
    time keyword.  If that text reads [pre ++ "weather in" ++ X], with no
    earlier ["weather in"] in [pre], the weather lookup is called with the
    location [X] stripped of surrounding whitespace; and so it is for
    ["weather at"] when the text holds no ["weather in"] at all.  [X] is a
    piece of the lowercased text. *)
Theorem weather_location_after_keyword
  (env : environment) (raw keyword pre X : str) (now : Z) (reminders : store) :
  Py.lower raw = pre ++ keyword ++ X ->
  keyword = "weather in" \/
  (keyword = "weather at" /\
   Py.contains "weather in" (Py.lower raw) = false) ->
  Py.contains keyword pre = false ->
  any_in time_keywords (Py.lower raw) = false ->
  classify (Py.lower raw) = Returned (WeatherQuery (Some (Py.strip X))) /\
  dispatch env (Py.lower raw) now reminders =
    match get_weather_data env (Some (Py.strip X)) with
    | Returned w => (Returned (WeatherResponse w), reminders)
    | Raised e => (Raised e, reminders)
    end.
Proof.
  intros Hcmd Hkw Hfirst Htime.
  assert (Hw : any_in weather_keywords (Py.lower raw) = true).
  { unfold any_in. apply existsb_exists.
    exists ("weather" : str). split; [left; reflexivity|].
    rewrite Hcmd.
    destruct Hkw as [-> | [-> _]].
    - change ("weather in" ++ X) with ("weather" ++ (" in" ++ X)).
      apply contains_app.
    - change ("weather at" ++ X) with ("weather" ++ (" at" ++ X)).
      apply contains_app. }
  assert (Hloc : weather_location (Py.lower raw) = Some (Py.strip X)).
  { unfold weather_location.
    destruct Hkw as [-> | [-> Hin]].
    - replace (Py.contains "weather in" (Py.lower raw)) with true
        by (symmetry; rewrite Hcmd; apply contains_app).
      simpl orb. cbv beta iota zeta. f_equal.
      apply (weather_location_after (Py.lower raw) "weather in" pre X
               "w"%char "eather in"); try assumption; try reflexivity.
      simpl. intuition discriminate.
    - rewrite Hin.
      replace (Py.contains "weather at" (Py.lower raw)) with true
        by (symmetry; rewrite Hcmd; apply contains_app).
      simpl orb. cbv beta iota zeta. f_equal.
      apply (weather_location_after (Py.lower raw) "weather at" pre X
               "w"%char "eather at"); try assumption; try reflexivity.
      simpl. intuition discriminate. }
  assert (Hc : classify (Py.lower raw) =
               Returned (WeatherQuery (Some (Py.strip X)))).
  { unfold classify. now rewrite Htime, Hw, Hloc. }
  split; [exact Hc|].
  unfold dispatch, bind, lift. rewrite Hc. simpl execute. unfold bind, lift.
  destruct (get_weather_data env (Some (Py.strip X))); reflexivity.
Qed.

Lemma weather_location_after_keyword_witness :
  Py.lower "What's the weather in Tokyo" =
    "what's the " ++ "weather in" ++ " tokyo" /\
  classify (Py.lower "What's the weather in Tokyo") =
    Returned (WeatherQuery (Some (Py.strip " tokyo"))).
Proof.
  split; [reflexivity|].
  apply (weather_location_after_keyword offline "What's the weather in Tokyo"
           "weather in" "what's the " " tokyo" 0%Z []).
  - reflexivity.
  - left. reflexivity.
  - reflexivity.
  - reflexivity.
Defined.

(** C6, as stated, fails: the command holds ["weather in" ++ " Tokyo"], and
    the location handed to the lookup is ["tokyo"], not ["Tokyo"]. *)
Lemma weather_location_counterexample :
  ("What's the weather in Tokyo" : str) =
    "What's the " ++ "weather in" ++ " Tokyo" /\
  Py.strip " Tokyo" = "Tokyo" /\
  classify (Py.lower "What's the weather in Tokyo") =
    Returned (WeatherQuery (Some ("tokyo" : str))) /\
  ("tokyo" : str) <> Py.strip " Tokyo".
Proof. repeat split. discriminate. Qed.

(** ** The reminder pattern *)

Section Pattern.

Lemma rmatch_star_sound (A : Type) (p : ascii -> bool) (s : str)
  (k : str -> option A) :
  forall x,
    Re.rmatch (Re.Star p) s k = Some x ->
    exists m rest,
      s = m ++ rest /\ Forall (fun c => p c = true) m /\ k rest = Some x.
Proof.
  simpl. induction s as [|c s IH]; intros x.
  - intros H. exists [], []. now repeat split.
  - destruct (p c) eqn:Ec.
    + match goal with
      | |- context [match ?t with Some _ => _ | None => _ end] =>
          destruct t as [y|]
      end.
      * intros [= <-]. destruct (IH y eq_refl) as (m & rest & -> & Hm & Hk).
        exists (c :: m), rest. repeat split; [now constructor | exact Hk].
      * intros H. exists [], (c :: s). now repeat split.
    + intros H. exists [], (c :: s). now repeat split.
Qed.

(** Whatever the matcher consumes is a text of the pattern. *)
Lemma rmatch_sound (r : Re.regex) :
  forall (A : Type) (s : str) (k : str -> option A) (x : A),
    Re.rmatch r s k = Some x ->
    exists m rest, s = m ++ rest /\ matches r m /\ k rest = Some x.
Proof.
  induction r as [p | r1 IH1 r2 IH2 | r1 IH1 r2 IH2 | r1 IH1 | p];
    intros A s k x H.
  - destruct s as [|c s]; simpl in H; [discriminate|].
    destruct (p c) eqn:Ec; [|discriminate].
    exists [c], s. repeat split; [now constructor | exact H].
  - simpl in H. apply IH1 in H as (m1 & rest1 & -> & Hm1 & H).
    apply IH2 in H as (m2 & rest & -> & Hm2 & H).
    exists (m1 ++ m2), rest. rewrite <- app_assoc.
    repeat split; [now constructor | exact H].
  - simpl in H. destruct (Re.rmatch r1 s k) as [y|] eqn:E.
    + injection H as ->. apply IH1 in E as (m & rest & -> & Hm & Hk).
      exists m, rest. repeat split; [now apply matches_alt_left | exact Hk].
    + apply IH2 in H as (m & rest & -> & Hm & Hk).
      exists m, rest. repeat split; [now apply matches_alt_right | exact Hk].
  - simpl in H. destruct (Re.rmatch r1 s k) as [y|] eqn:E.
    + injection H as ->. apply IH1 in E as (m & rest & -> & Hm & Hk).
      exists m, rest. repeat split; [now apply matches_opt_some | exact Hk].
    + exists [], s. repeat split; [apply matches_opt_none | exact H].
  - apply rmatch_star_sound in H as (m & rest & -> & Hm & Hk).
    exists m, rest. repeat split; [now constructor | exact Hk].
Qed.

Lemma search_unfold (r : Re.regex) (s : str) :
  Re.search r s =
  match Re.rmatch r s (fun rest => Some rest) with
  | Some rest => Some (firstn (length s - length rest) s)
  | None => match s with [] => None | _ :: s' => Re.search r s' end
  end.
Proof. destruct s; reflexivity. Qed.

Lemma rmatch_here_sound (r : Re.regex) (s rest : str) :
  Re.rmatch r s (fun rest => Some rest) = Some rest ->
  matches r (firstn (length s - length rest) s) /\
  s = firstn (length s - length rest) s ++ rest.
Proof.
  intros E. apply rmatch_sound in E as (m & rest' & -> & Hm & [= ->]).
  rewrite length_app, Nat.add_sub.
  rewrite firstn_app, Nat.sub_diag, firstn_all. simpl firstn.
  rewrite app_nil_r. now split.
Qed.

(** A search result is a text of the pattern that occurs in the subject. *)
Lemma search_sound (r : Re.regex) (s m : str) :
  Re.search r s = Some m ->
  matches r m /\ exists before after, s = before ++ m ++ after.
Proof.
  induction s as [|c s IH]; rewrite search_unfold;
    destruct (Re.rmatch r _ (fun rest => Some rest)) as [rest|] eqn:E;
    try discriminate.
  - intros [= <-]. apply rmatch_here_sound in E as [Hm Hs].
    split; [exact Hm|]. now exists [], rest.
  - intros [= <-]. apply rmatch_here_sound in E as [Hm Hs].
    split; [exact Hm|]. now exists [], rest.
  - intros H. destruct (IH H) as (Hm & before & after & ->).
    split; [exact Hm|]. now exists (c :: before), after.
Qed.

Lemma matches_class_inv (p : ascii -> bool) (m : str) :
  matches (Re.Class p) m -> exists c, m = [c] /\ p c = true.
Proof. intros H. inversion H; subst. eauto. Qed.

Lemma matches_cat_inv (r1 r2 : Re.regex) (m : str) :
  matches (Re.Cat r1 r2) m ->
  exists a b, m = a ++ b /\ matches r1 a /\ matches r2 b.
Proof. intros H. inversion H; subst. eauto. Qed.

Lemma matches_alt_inv (r1 r2 : Re.regex) (m : str) :
  matches (Re.Alt r1 r2) m -> matches r1 m \/ matches r2 m.
Proof. intros H. inversion H; subst; auto. Qed.

Lemma matches_opt_inv (r : Re.regex) (m : str) :
  matches (Re.Opt r) m -> matches r m \/ m = [].
Proof. intros H. inversion H; subst; auto. Qed.

Lemma matches_star_inv (p : ascii -> bool) (m : str) :
  matches (Re.Star p) m -> Forall (fun c => p c = true) m.
Proof. intros H. now inversion H. Qed.

Lemma matches_lit (s m : str) :
  s <> [] -> matches (Re.Lit s) m -> m = s.
Proof.
  revert m; induction s as [|c s IH]; intros m Hne H; [congruence|].
  destruct s as [|c' s].
  - apply matches_class_inv in H as (d & -> & Hd).
    apply Ascii.eqb_eq in Hd. now subst.
  - change (Re.Lit (c :: c' :: s))
      with (Re.Cat (Re.Class (Ascii.eqb c)) (Re.Lit (c' :: s))) in H.
    apply matches_cat_inv in H as (a & b & -> & Ha & Hb).
    apply matches_class_inv in Ha as (d & -> & Hd).
    apply Ascii.eqb_eq in Hd. subst d.
    apply IH in Hb; [|discriminate]. now subst.
Qed.

Lemma matches_lit_opt_s (u m : str) :
  u <> [] ->
  matches (Re.Cat (Re.Lit u) (Re.Opt (Re.Class (Ascii.eqb "s")))) m ->
  m = u \/ m = u ++ "s".
Proof.
  intros Hne H. apply matches_cat_inv in H as (a & b & -> & Ha & Hb).
  apply matches_lit in Ha; [|exact Hne]. subst a.
  apply matches_opt_inv in Hb as [Hs | ->].
  - apply matches_class_inv in Hs as (d & -> & Hd).
    apply Ascii.eqb_eq in Hd. subst d. now right.
  - left. apply app_nil_r.
Qed.

(** The texts of [(\d+)\s*(seconds?|minutes?)]: a digit, more digits,
    whitespace, and one of the four units. *)
Lemma matches_reminder_pattern (m : str) :
  matches reminder_pattern m ->
  exists d digits spaces unit,
    m = d :: digits ++ spaces ++ unit /\
    Py.isdigit d = true /\
    Forall (fun c => Py.isdigit c = true) digits /\
    Forall (fun c => Py.isspace c = true) spaces /\
    In unit time_units.
Proof.
  intros H. unfold reminder_pattern, Re.Plus in H.
  apply matches_cat_inv in H as (a & b & -> & Ha & Hb).
  apply matches_cat_inv in Ha as (a1 & digits & -> & Hd & Hdigits).
  apply matches_class_inv in Hd as (d & -> & Hd).
  apply matches_star_inv in Hdigits.
  apply matches_cat_inv in Hb as (spaces & unit & -> & Hspaces & Hunit).
  apply matches_star_inv in Hspaces.
  exists d, digits, spaces, unit.
  split; [reflexivity|].
  repeat split; try assumption.
  apply matches_alt_inv in Hunit as [Hu | Hu];
    apply matches_lit_opt_s in Hu as [-> | ->]; try discriminate;
    simpl; auto.
Qed.

End Pattern.

(** ** The dispatcher as a whole *)

Ltac known_type :=
  unfold response_types, strs; simpl;
  repeat (first [left; reflexivity | right]).

Section Dispatcher.

Lemma split_once_of_contains (p s : str) :
  Py.contains p s = true -> exists a b, Py.split_once p s = Some (a, b).
Proof.
  induction s as [|c s IH]; rewrite contains_unfold; intros H; simpl.
  - rewrite orb_false_r in H. rewrite H. eauto.
  - destruct (Py.startswith p (c :: s)); [eauto|].
    simpl in H. destruct (IH H) as (a & b & ->). eauto.
Qed.

Lemma search_contains (r : Re.regex) (s m : str) :
  Re.search r s = Some m -> Py.contains m s = true.
Proof.
  intros H. apply search_sound in H as (_ & before & after & ->).
  apply contains_app.
Qed.

Lemma reminder_intent_returns (command : str) :
  exists i, reminder_intent command = Returned i.
Proof.
  unfold reminder_intent.
  destruct (Re.search reminder_pattern command) as [ts|] eqn:Es; [|eauto].
  apply search_contains, split_once_of_contains in Es as (before & after & ->).
  destruct (Py.contains " to " (Py.strip after)) eqn:Et.
  - apply split_once_of_contains in Et as (a & message & ->).
    destruct (Py.strip message); eauto.
  - destruct (Py.strip after); eauto.
Qed.

Lemma classify_returns (command : str) :
  exists i, classify command = Returned i.
Proof.
  unfold classify.
  repeat match goal with
         | |- context [if ?c then _ else _] => destruct c
         end; eauto using reminder_intent_returns.
Qed.

Lemma execute_response_type (env : environment) (i : intent) (now : Z)
  (reminders reminders' : store) (r0 : response_data) :
  execute env i now reminders = (Returned r0, reminders') ->
  In (response_type r0) response_types.
Proof.
  destruct i as [|loc|q|msg ts| | | | |]; cbn [execute];
    unfold ret, bind, lift; try (intros [= <- _]; known_type).
  - destruct (get_weather_data env loc); [|discriminate].
    intros [= <- _]. known_type.
  - destruct (set_reminder_data _ _ _ _) as [[resp|e] st]; [|discriminate].
    intros [= <- _]. known_type.
Qed.

Lemma dispatch_inv (env : environment) (command : str) (now : Z)
  (reminders : store) :
  exists i, classify command = Returned i /\
            dispatch env command now reminders = execute env i now reminders.
Proof.
  destruct (classify_returns command) as [i Hi]. exists i.
  split; [exact Hi|]. unfold dispatch, bind, lift. now rewrite Hi.
Qed.

(** How the branch can end: it returns and has added nothing or one
    reminder at the end of the list, or it raises and the list is as it
    was, the exception coming from the weather lookup or being the
    [OverflowError] of the reminder handler. *)
Lemma dispatch_cases (env : environment) (command : str) (now : Z)
  (reminders : store) :
  (exists r0 added,
     dispatch env command now reminders = (Returned r0, reminders ++ added) /\
     (added = [] \/ exists r, added = [r])) \/
  (exists e,
     dispatch env command now reminders = (Raised e, reminders) /\
     ((exists loc, classify command = Returned (WeatherQuery loc) /\
                   get_weather_data env loc = Raised e) \/
      (exists msg ts, classify command = Returned (SetReminder msg ts) /\
                      e = OverflowError))).
Proof.
  destruct (dispatch_inv env command now reminders) as (i & Hi & ->).
  destruct i as [|loc|q|msg ts| | | | |]; simpl; unfold ret, bind, lift;
    try (left; eexists; exists []; rewrite app_nil_r; split;
           [reflexivity | now left]).
  - destruct (get_weather_data env loc) as [w|e] eqn:Ew.
    + left; eexists; exists []; rewrite app_nil_r; split;
        [reflexivity | now left].
    + right. exists e. split; [reflexivity|]. left. eauto.
  - destruct (set_reminder_data_cases msg ts now reminders)
      as [(n & unit & t & ->) | [-> | [-> | ->]]].
    + left. eexists; eexists. split; [reflexivity|]. right. eauto.
    + left; eexists; exists []; rewrite app_nil_r; split;
        [reflexivity | now left].
    + left; eexists; exists []; rewrite app_nil_r; split;
        [reflexivity | now left].
    + right. exists OverflowError. split; [reflexivity|]. right. eauto.
Qed.

End Dispatcher.

(** X1. The string analysis of the dispatcher never raises: every command
    selects a branch.  The two places where the code indexes the result of
    [split] with [[1]] always find a second element. *)
Theorem classify_never_raises (raw : str) :
  exists i, classify (Py.lower raw) = Returned i.
Proof. apply classify_returns. Qed.

(** X2. Whatever the command, the clock readings and the stored reminders,
    the type of the response is one of the eight tags the code writes. *)
Theorem response_type_is_known
  (env : environment) (raw : str) (now current_time : Z) (reminders : store) :
  In (response_type
        (fst (fst (process_command env raw now current_time reminders))))
     response_types.
Proof.
  destruct (dispatch_cases env (Py.lower raw) now reminders)
    as [(r0 & added & Hd & _) | (e & Hd & _)].
  - rewrite (process_command_returned env raw now current_time _ _ _ Hd).
    simpl fst.
    destruct (last_alert_cases
                (filter (is_due current_time) (reminders ++ added)) r0)
      as [-> | ->].
    + destruct (dispatch_inv env (Py.lower raw) now reminders)
        as (i & _ & Hi).
      rewrite Hi in Hd. now apply execute_response_type in Hd.
    + known_type.
  - rewrite (process_command_raised env raw now current_time _ _ _ Hd).
    known_type.
Qed.





(** ** Characters, stripping and integers *)

Section Parsing.

Lemma isdigit_facts (c : ascii) :
  Py.isdigit c = true ->
  Py.isspace c = false /\
  Ascii.eqb c " " = false /\ Ascii.eqb c "-" = false /\
  Ascii.eqb c "+" = false /\
  Ascii.eqb "s" c = false /\ Ascii.eqb "m" c = false.
Proof.
  destruct c as [[] [] [] [] [] [] [] []]; intros H;
    try discriminate H; repeat split.
Qed.

Lemma isspace_facts (c : ascii) :
  Py.isspace c = true ->
  Ascii.eqb "s" c = false /\ Ascii.eqb "m" c = false.
Proof.
  destruct c as [[] [] [] [] [] [] [] []]; intros H;
    try discriminate H; repeat split.
Qed.

Lemma lstrip_idem (s : str) : Py.lstrip (Py.lstrip s) = Py.lstrip s.
Proof.
  induction s as [|c s IH]; simpl; [reflexivity|].
  destruct (Py.isspace c) eqn:E; [exact IH|]. simpl. now rewrite E.
Qed.

Lemma lstrip_head (s : str) :
  Py.lstrip s = [] \/
  exists c t, Py.lstrip s = c :: t /\ Py.isspace c = false.
Proof.
  induction s as [|c s IH]; simpl; [now left|].
  destruct (Py.isspace c) eqn:E; [exact IH|]. right. eauto.
Qed.

Lemma lstrip_snoc (c : ascii) (l : str) :
  Py.isspace c = false -> exists l', Py.lstrip (l ++ [c]) = l' ++ [c].
Proof.
  intros Hc. induction l as [|x l [l' IH]]; simpl.
  - rewrite Hc. now exists [].
  - destruct (Py.isspace x); [eauto|]. now exists (x :: l).
Qed.

Lemma rstrip_cons (c : ascii) (t : str) :
  Py.isspace c = false -> exists t', Py.rstrip (c :: t) = c :: t'.
Proof.
  intros Hc. unfold Py.rstrip. simpl rev.
  destruct (lstrip_snoc c (rev t) Hc) as [l' ->].
  rewrite rev_app_distr. simpl. eauto.
Qed.

Lemma rstrip_idem (s : str) : Py.rstrip (Py.rstrip s) = Py.rstrip s.
Proof. unfold Py.rstrip. now rewrite rev_involutive, lstrip_idem. Qed.

(** Stripping twice is stripping once. *)
Lemma strip_idem (s : str) : Py.strip (Py.strip s) = Py.strip s.
Proof.
  unfold Py.strip.
  assert (H : Py.lstrip (Py.rstrip (Py.lstrip s)) = Py.rstrip (Py.lstrip s)).
  { destruct (lstrip_head s) as [-> | (c & t & -> & Hc)]; [reflexivity|].
    destruct (rstrip_cons c t Hc) as [t' ->]. simpl. now rewrite Hc. }
  rewrite H. apply rstrip_idem.
Qed.

(** Stripping keeps a first character that is not whitespace. *)
Lemma strip_cons (c : ascii) (t : str) :
  Py.isspace c = false -> exists t', Py.strip (c :: t) = c :: t'.
Proof.
  intros Hc. unfold Py.strip. simpl. rewrite Hc. now apply rstrip_cons.
Qed.



Lemma digit_value_nonneg (c : ascii) : (0 <= Py.digit_value c)%Z.
Proof. unfold Py.digit_value. apply N2Z.is_nonneg. Qed.

Lemma int_digits_nonneg (s : str) :
  forall acc b n,
    (0 <= acc)%Z -> Py.int_digits s acc b = Some n -> (0 <= n)%Z.
Proof.
  induction s as [|c s IH]; intros acc b n Hacc; cbn [Py.int_digits].
  - destruct b; [|discriminate]. now intros [= <-].
  - destruct (Py.isdigit c).
    + apply IH. pose proof (digit_value_nonneg c). lia.
    + destruct (Ascii.eqb c "_" && b)%bool; [|discriminate]. now apply IH.
Qed.

(** A literal that begins with a digit has no sign: its value is not
    negative. *)
Lemma int_of_digit_first (d : ascii) (t : str) (n : Z) :
  Py.isdigit d = true -> Py.int (d :: t) = Some n -> (0 <= n)%Z.
Proof.
  intros Hd. destruct (isdigit_facts d Hd) as (Hs & _ & Hm & Hp & _).
  unfold Py.int. destruct (strip_cons d t Hs) as [t' ->].
  rewrite Hm, Hp. apply int_digits_nonneg. lia.
Qed.





Lemma contains_cons_other (p0 c : ascii) (p s : str) :
  Ascii.eqb p0 c = false ->
  Py.contains (p0 :: p) (c :: s) = Py.contains (p0 :: p) s.
Proof. intros H. rewrite contains_unfold. simpl. now rewrite H. Qed.

Lemma contains_skip (p0 : ascii) (p l s : str) :
  Forall (fun c => Ascii.eqb p0 c = false) l ->
  Py.contains (p0 :: p) (l ++ s) = Py.contains (p0 :: p) s.
Proof.
  induction 1 as [|c l Hc _ IH]; [reflexivity|].
  simpl app. now rewrite contains_cons_other.
Qed.

(** Digits and whitespace in front of a text do not create an occurrence
    of ["seconds"] or ["minutes"]. *)
Lemma contains_unit_after (digits spaces rest : str) :
  Forall (fun c => Py.isdigit c = true) digits ->
  Forall (fun c => Py.isspace c = true) spaces ->
  Py.contains "seconds" (digits ++ spaces ++ rest) = Py.contains "seconds" rest /\
  Py.contains "minutes" (digits ++ spaces ++ rest) = Py.contains "minutes" rest.
Proof.
  intros Hd Hs.
  change (list_ascii_of_string "seconds")
    with ("s"%char :: list_ascii_of_string "econds").
  change (list_ascii_of_string "minutes")
    with ("m"%char :: list_ascii_of_string "inutes").
  split.
  - rewrite contains_skip, contains_skip; [reflexivity| |].
    + eapply Forall_impl; [|exact Hs]. intros c Hc.
      now destruct (isspace_facts c Hc).
    + eapply Forall_impl; [|exact Hd]. intros c Hc.
      now destruct (isdigit_facts c Hc) as (_ & _ & _ & _ & ? & ?).
  - rewrite contains_skip, contains_skip; [reflexivity| |].
    + eapply Forall_impl; [|exact Hs]. intros c Hc.
      now destruct (isspace_facts c Hc).
    + eapply Forall_impl; [|exact Hd]. intros c Hc.
      now destruct (isdigit_facts c Hc) as (_ & _ & _ & _ & ? & ?).
Qed.

End Parsing.

(** ** The time branch *)

Section TimeBranch.

Lemma clock_text_ok (t : Z) :
  is_clock_text (Datetime.strftime_I_M_p t) = true.
Proof.
  pose (fmt := fun hour minute : Z =>
    Datetime.two_digits
      (if (hour mod 12 =? 0)%Z then 12%Z else (hour mod 12)%Z) ++
    ":" ++ Datetime.two_digits minute ++ " " ++
    (if (hour <? 12)%Z then "AM" else "PM") : str).
  assert (Htable :
    forallb (fun h => forallb (fun m =>
      is_clock_text (fmt (Z.of_nat h) (Z.of_nat m))) (seq 0 60)) (seq 0 24)
    = true) by (vm_compute; reflexivity).
  set (hour := ((t / (3600 * Datetime.microseconds_per_second)) mod 24)%Z).
  set (minute := ((t / (60 * Datetime.microseconds_per_second)) mod 60)%Z).
  change (is_clock_text (fmt hour minute) = true).
  assert (Hh : (0 <= hour < 24)%Z) by (apply Z.mod_pos_bound; lia).
  assert (Hm : (0 <= minute < 60)%Z) by (apply Z.mod_pos_bound; lia).
  rewrite forallb_forall in Htable.
  specialize (Htable (Z.to_nat hour)).
  rewrite forallb_forall in Htable.
  specialize (Htable ltac:(apply in_seq; lia) (Z.to_nat minute)
                ltac:(apply in_seq; lia)).
  now rewrite !Z2Nat.id in Htable by lia.
Qed.

End TimeBranch.

(** X4. The time test comes first: a command whose lowercased text holds
    one of ["time"], ["hour"], ["clock"], ["o'clock"] is answered with the
    current time whatever else it says; the branch leaves the reminders
    alone, and the clock text is two digits, a colon, two digits, a space
    and [AM] or [PM]. *)
Theorem time_keyword_wins
  (env : environment) (raw : str) (now : Z) (reminders : store) :
  any_in time_keywords (Py.lower raw) = true ->
  dispatch env (Py.lower raw) now reminders =
    (Returned
       (Plain ("The current time is " ++ Datetime.strftime_I_M_p now) "time"),
     reminders) /\
  is_clock_text (Datetime.strftime_I_M_p now) = true.
Proof.
  intros H. split; [|apply clock_text_ok].
  unfold dispatch, bind, lift, classify. now rewrite H.
Qed.

Lemma time_keyword_wins_witness :
  any_in time_keywords
    (Py.lower "Remind me in 5 minutes about the weather this hour") = true /\
  dispatch offline
    (Py.lower "Remind me in 5 minutes about the weather this hour")
    48600000000%Z [] =
  (Returned (Plain "The current time is 01:30 PM" "time"), []).
Proof.
  split; [reflexivity|].
  apply (time_keyword_wins offline
           "Remind me in 5 minutes about the weather this hour"
           48600000000%Z []).
  reflexivity.
Defined.

(** ** What the reminder branch hands to the handler *)

Section ReminderArguments.

Lemma reminder_intent_message (command reminder_text time_str : str) :
  reminder_intent command = Returned (SetReminder reminder_text time_str) ->
  reminder_text <> [] /\ exists x, reminder_text = Py.strip x.
Proof.
  unfold reminder_intent.
  destruct (Re.search reminder_pattern command) as [ts|]; [|discriminate].
  destruct (Py.split_once ts command) as [[before after]|]; [|discriminate].
  destruct (Py.contains " to " (Py.strip after)).
  - destruct (Py.split_once " to " (Py.strip after)) as [[pre message]|];
      [|discriminate].
    destruct (Py.strip message) as [|c m] eqn:Em; [discriminate|].
    intros [= <- <-]. split; [discriminate|]. exists message. now rewrite Em.
  - destruct (Py.strip after) as [|c m] eqn:Em; [discriminate|].
    intros [= <- <-]. split; [discriminate|]. exists after. now rewrite Em.
Qed.

Lemma classify_time_str_shape (command reminder_text time_str : str) :
  classify command = Returned (SetReminder reminder_text time_str) ->
  exists d digits spaces unit,
    time_str = d :: digits ++ spaces ++ unit /\
    Py.isdigit d = true /\
    Forall (fun c => Py.isdigit c = true) digits /\
    Forall (fun c => Py.isspace c = true) spaces /\
    In unit time_units.
Proof.
  intros H. apply classify_set_reminder, reminder_intent_inv in H as (Hs & _).
  apply search_sound in Hs as [Hm _]. now apply matches_reminder_pattern.
Qed.

(** A confirmation tells when the reminder fires. *)
Lemma set_reminder_data_confirmed (reminder_text time_str : str) (now : Z)
  (reminders reminders' : store) (response : reminder_response)
  (r : reminder_data) :
  set_reminder_data reminder_text time_str now reminders =
    (Returned response, reminders') ->
  reminder response = Some r ->
  exists n,
    Py.int (Py.first_field time_str) = Some n /\
    (time r = now + n * 1000000 \/ time r = now + n * 60 * 1000000)%Z /\
    (0 <= time r <= Datetime.max)%Z /\
    text r = reminder_text /\ reminders' = reminders ++ [r].
Proof.
  unfold set_reminder_data, try_except, bind, int_or_raise, lift.
  assert (Hadd : forall d t, datetime_add now d = Returned t ->
                   t = (now + d)%Z /\ (0 <= t <= Datetime.max)%Z).
  { intros d t. unfold datetime_add.
    destruct (0 <=? now + d)%Z eqn:E1; [|discriminate].
    destruct (now + d <=? Datetime.max)%Z eqn:E2; [|discriminate].
    simpl. intros [= <-]. apply Z.leb_le in E1, E2. lia. }
  assert (Hdelta : forall us d, timedelta us = Returned d -> d = us).
  { intros us d. unfold timedelta.
    destruct (_ && _)%bool; [now intros [= <-] | discriminate]. }
  destruct (Py.contains "seconds" time_str).
  - destruct (Py.int (Py.first_field time_str)) as [n|]; unfold ret, raise.
    + destruct (timedelta _) as [d|e] eqn:Et;
        [|destruct (is_value_or_index_error e); simpl; intros [= <- <-];
          discriminate].
      destruct (datetime_add now d) as [t|e] eqn:Ea;
        [|destruct (is_value_or_index_error e); simpl; intros [= <- <-];
          discriminate].
      unfold append. intros [= <- <-] [= <-].
      apply Hdelta in Et. apply Hadd in Ea as [-> Hr]. subst d.
      exists n. simpl. unfold Datetime.microseconds_per_second in *.
      repeat split; lia.
    + simpl. intros [= <- <-]. discriminate.
  - destruct (Py.contains "minutes" time_str);
      [|intros [= <- <-]; discriminate].
    destruct (Py.int (Py.first_field time_str)) as [n|]; unfold ret, raise.
    + destruct (timedelta _) as [d|e] eqn:Et;
        [|destruct (is_value_or_index_error e); simpl; intros [= <- <-];
          discriminate].
      destruct (datetime_add now d) as [t|e] eqn:Ea;
        [|destruct (is_value_or_index_error e); simpl; intros [= <- <-];
          discriminate].
      unfold append. intros [= <- <-] [= <-].
      apply Hdelta in Et. apply Hadd in Ea as [-> Hr]. subst d.
      exists n. simpl. unfold Datetime.microseconds_per_second in *.
      repeat split; lia.
    + simpl. intros [= <- <-]. discriminate.
Qed.

Lemma classify_set_reminder_shape (command reminder_text time_str : str) :
  classify command = Returned (SetReminder reminder_text time_str) ->
  (exists d digits spaces unit,
     time_str = d :: digits ++ spaces ++ unit /\
     Py.isdigit d = true /\
     Forall (fun c => Py.isdigit c = true) digits /\
     Forall (fun c => Py.isspace c = true) spaces /\
     In unit time_units) /\
  reminder_text <> [].
Proof.
  intros H. split; [now apply classify_time_str_shape in H|].
  now apply classify_set_reminder, reminder_intent_message in H as (Hne & _).
Qed.

End ReminderArguments.

(** X5. When the reminder branch calls the handler, the time it hands over
    is a run of digits, then whitespace (possibly none), then one of
    [second], [seconds], [minute], [minutes]; the message is not empty and
    has no whitespace at either end. *)
Theorem handler_arguments_shape (raw reminder_text time_str : str) :
  classify (Py.lower raw) = Returned (SetReminder reminder_text time_str) ->
  (exists d digits spaces unit,
     time_str = d :: digits ++ spaces ++ unit /\
     Py.isdigit d = true /\
     Forall (fun c => Py.isdigit c = true) digits /\
     Forall (fun c => Py.isspace c = true) spaces /\
     In unit time_units) /\
  reminder_text <> [] /\
  Py.strip reminder_text = reminder_text.
Proof.
  intros H. split; [now apply classify_time_str_shape in H|].
  apply classify_set_reminder, reminder_intent_message in H as (Hne & x & ->).
  split; [exact Hne | apply strip_idem].
Qed.

Lemma handler_arguments_shape_witness :
  classify (Py.lower "Set a REMINDER in 15   Seconds:   water the plants  ") =
    Returned (SetReminder ":   water the plants" "15   seconds") /\
  Py.strip ":   water the plants" = ":   water the plants".
Proof.
  split; [reflexivity|].
  apply (handler_arguments_shape
           "Set a REMINDER in 15   Seconds:   water the plants  "
           ":   water the plants" "15   seconds").
  reflexivity.
Defined.

(** X6. A time with the unit in the singular is refused: for digits,
    whitespace and then [second] or [minute], the handler returns the text
    that only seconds or minutes are supported and stores nothing. *)
Theorem singular_unit_is_refused
  (reminder_text digits spaces unit : str) (now : Z) (reminders : store) :
  Forall (fun c => Py.isdigit c = true) digits ->
  Forall (fun c => Py.isspace c = true) spaces ->
  unit = "second" \/ unit = "minute" ->
  set_reminder_data reminder_text (digits ++ spaces ++ unit) now reminders =
  (Returned (mkReminderResponse unsupported_unit_text None), reminders).
Proof.
  intros Hd Hs Hu.
  destruct (contains_unit_after digits spaces unit Hd Hs) as [Hsec Hmin].
  apply set_reminder_data_unsupported.
  - rewrite Hsec. now destruct Hu as [-> | ->].
  - rewrite Hmin. now destruct Hu as [-> | ->].
Qed.

Lemma singular_unit_is_refused_witness :
  classify (Py.lower "Remind me in 1 minute to stretch") =
    Returned (SetReminder "to stretch" ("1" ++ " " ++ "minute")) /\
  set_reminder_data "to stretch" ("1" ++ " " ++ "minute") 0%Z [] =
    (Returned (mkReminderResponse unsupported_unit_text None), []).
Proof.
  split; [reflexivity|].
  apply (singular_unit_is_refused "to stretch" "1" " " "minute" 0%Z []).
  - repeat constructor.
  - repeat constructor.
  - now right.
Defined.



(** X8. A reminder created through the endpoint never lies in the past of
    the call: when the branch answers with a confirmation that carries a
    reminder, that reminder is the one appended to the list, its message is
    not empty, and its fire time is [now] plus a whole, non-negative number
    of seconds or minutes and is a valid [datetime]. *)
Theorem created_reminder_is_not_in_the_past
  (env : environment) (raw : str) (now : Z) (reminders reminders' : store)
  (response : reminder_response) (r : reminder_data) :
  dispatch env (Py.lower raw) now reminders =
    (Returned (ReminderSetResponse response), reminders') ->
  reminder response = Some r ->
  reminders' = reminders ++ [r] /\
  text r <> [] /\
  (now <= time r <= Datetime.max)%Z /\
  exists n, (0 <= n)%Z /\
    (time r = now + n * 1000000 \/ time r = now + n * 60 * 1000000)%Z.
Proof.
  intros Hd Hr.
  destruct (dispatch_inv env (Py.lower raw) now reminders) as (i & Hi & He).
  rewrite He in Hd.
  destruct i as [|loc|q|msg ts| | | | |]; cbn [execute] in Hd;
    unfold ret, bind, lift in Hd; try discriminate.
  - destruct (get_weather_data env loc); discriminate.
  - destruct (set_reminder_data msg ts now reminders) as [[resp|e] st] eqn:Es;
      [|discriminate].
    injection Hd as <- <-.
    destruct (set_reminder_data_confirmed msg ts now reminders st resp r Es Hr)
      as (n & Hn & Ht & Hrange & Htext & Hst).
    destruct (classify_set_reminder_shape _ _ _ Hi)
      as ((d & digits & spaces & unit & -> & Hdig & _) & Hne).
    assert (Hpos : (0 <= n)%Z).
    { simpl in Hn. destruct (isdigit_facts d Hdig) as (_ & E & _).
      rewrite E in Hn. now apply int_of_digit_first in Hn. }
    split; [exact Hst|]. split; [now rewrite Htext|].
    split; [|now exists n]. destruct Ht as [Ht | Ht]; rewrite Ht in *; lia.
Qed.

Lemma created_reminder_is_not_in_the_past_witness :
  dispatch offline (Py.lower "Remind me in 007 seconds to duck") 1000%Z [] =
    (Returned
       (ReminderSetResponse
          (mkReminderResponse
             "Okay, I will remind you to 'to duck' in 7 seconds."
             (Some (mkReminder 7001000 "to duck")))),
     [mkReminder 7001000 "to duck"]) /\
  (1000 <= time (mkReminder 7001000 "to duck") <= Datetime.max)%Z.
Proof.
  split; [reflexivity|].
  apply (created_reminder_is_not_in_the_past offline
           "Remind me in 007 seconds to duck" 1000%Z []
           [mkReminder 7001000 "to duck"]
           (mkReminderResponse
              "Okay, I will remind you to 'to duck' in 7 seconds."
              (Some (mkReminder 7001000 "to duck")))
           (mkReminder 7001000 "to duck")); reflexivity.
Defined.

(** ** Topics and locations *)

Section Extraction.

Lemma news_query_none (words : list str) (command : str) :
  news_query words command = None <->
  forall word, In word words ->
    Py.contains (" " ++ word ++ " ") command = false.
Proof.
  induction words as [|w words IH]; cbn [news_query].
  - split; [intros _ word [] | reflexivity].
  - destruct (Py.contains (" " ++ w ++ " ") command) eqn:E.
    + assert (Hw : Py.contains w command = true).
      { apply contains_trans with (" " ++ w ++ " "); [|exact E].
        apply (contains_app " " w " "). }
      apply split_once_of_contains in Hw as (a & b & ->).
      split; [discriminate|]. intros H. specialize (H w (or_introl eq_refl)).
      congruence.
    + rewrite IH. split.
      * intros H word [<- | Hin]; [exact E | now apply H].
      * intros H word Hin. apply H. now right.
Qed.

Lemma news_query_some (words : list str) (command q : str) :
  news_query words command = Some q ->
  Py.strip q = q /\ Py.contains q command = true.
Proof.
  induction words as [|w words IH]; cbn [news_query]; [discriminate|].
  destruct (Py.contains (" " ++ w ++ " ") command); [|exact IH].
  destruct (Py.split_once w command) as [[a b]|] eqn:Es; [|exact IH].
  intros [= <-]. split; [apply strip_idem|].
  apply split_once_inv in Es. apply contains_trans with b;
    [apply strip_infix|]. rewrite Es, app_assoc. apply contains_tail.
Qed.

Lemma slice_from_infix (i : Z) (s : str) :
  Py.contains (Py.slice_from i s) s = true.
Proof.
  unfold Py.slice_from.
  set (n := Z.to_nat _).
  rewrite <- (firstn_skipn n s) at 2. apply contains_tail.
Qed.

End Extraction.

(** X12. The topic of a news command.  There is no topic exactly when
    none of [on], [about], [relating to], [for] stands between two spaces
    in the command; a topic, when there is one, is a piece of the command
    with no whitespace at either end. *)
Theorem news_topic_extraction (raw : str) :
  (news_query trigger_words (Py.lower raw) = None <->
   forall word, In word trigger_words ->
     Py.contains (" " ++ word ++ " ") (Py.lower raw) = false) /\
  (forall q, news_query trigger_words (Py.lower raw) = Some q ->
     Py.strip q = q /\ Py.contains q (Py.lower raw) = true).
Proof.
  split; [apply news_query_none|]. intros q. apply news_query_some.
Qed.

Lemma news_topic_extraction_witness :
  news_query trigger_words (Py.lower "Any NEWS about  the Moon landing ") =
    Some ("the moon landing" : str) /\
  Py.strip "the moon landing" = "the moon landing".
Proof.
  split; [reflexivity|].
  destruct (news_topic_extraction "Any NEWS about  the Moon landing ")
    as [_ H].
  apply (H "the moon landing"). reflexivity.
Defined.

(** X13. The location of a weather command.  The lookup gets no location
    (and falls back to its default) exactly when the command holds neither
    ["weather in"] nor ["weather at"]; a location, when there is one, is a
    piece of the command with no whitespace at either end. *)
Theorem weather_location_extraction (raw : str) :
  (weather_location (Py.lower raw) = None <->
   Py.contains "weather in" (Py.lower raw) = false /\
   Py.contains "weather at" (Py.lower raw) = false) /\
  (forall loc, weather_location (Py.lower raw) = Some loc ->
     Py.strip loc = loc /\ Py.contains loc (Py.lower raw) = true).
Proof.
  unfold weather_location. split.
  - destruct (Py.contains "weather in" (Py.lower raw));
      destruct (Py.contains "weather at" (Py.lower raw)); simpl orb; cbv iota;
      split; try discriminate; try tauto; intros [? ?]; discriminate.
  - intros loc.
    destruct (Py.contains "weather in" (Py.lower raw) ||
              Py.contains "weather at" (Py.lower raw))%bool; [|discriminate].
    cbv zeta. intros [= <-]. split; [apply strip_idem|].
    eapply contains_trans; [apply strip_infix | apply slice_from_infix].
Qed.

Lemma weather_location_extraction_witness :
  weather_location (Py.lower "Forecast: weather at   Cape Town  ") =
    Some ("cape town" : str) /\
  Py.contains "cape town" (Py.lower "Forecast: weather at   Cape Town  ") = true.
Proof.
  split; [reflexivity|].
  destruct (weather_location_extraction "Forecast: weather at   Cape Town  ")
    as [_ H].
  apply (H "cape town"). reflexivity.
Defined.

(** ** Headlines *)

Section Headlines.

Lemma nth_error_headlines (arts : list article) :
  forall (k : Z) (i : nat) (a : article),
    nth_error arts i = Some a ->
    nth_error (headlines k arts) i =
    Some ("Headline number " ++ Py.str_of_int (k + Z.of_nat i + 1) ++ ": " ++
          webTitle a).
Proof.
  induction arts as [|x arts IH]; intros k [|i] a; simpl nth_error;
    try discriminate.
  - intros [= <-]. cbn [headlines nth_error].
    replace (k + Z.of_nat 0 + 1)%Z with (k + 1)%Z by lia. reflexivity.
  - intros H. cbn [headlines nth_error]. rewrite (IH (k + 1)%Z i a H).
    replace (k + 1 + Z.of_nat i + 1)%Z with (k + Z.of_nat (S i) + 1)%Z by lia.
    reflexivity.
Qed.

Lemma join_cons (sep x : str) (l : list str) :
  exists rest, Py.join sep (x :: l) = x ++ rest.
Proof.
  destruct l as [|y l]; simpl.
  - exists []. now rewrite app_nil_r.
  - eauto.
Qed.

Lemma contains_join (sep x : str) (l : list str) :
  In x l -> Py.contains x (Py.join sep l) = true.
Proof.
  induction l as [|y l IH]; intros Hin; [destruct Hin|].
  destruct Hin as [-> | Hin].
  - destruct (join_cons sep x l) as [rest ->]. apply (contains_app [] x rest).
  - destruct l as [|z l]; [destruct Hin|].
    change (Py.join sep (y :: z :: l))
      with (y ++ sep ++ Py.join sep (z :: l)).
    apply contains_trans with (Py.join sep (z :: l)); [now apply IH|].
    rewrite app_assoc. apply contains_tail.
Qed.

Variable env : environment.
Variable results : list article.

Hypothesis key_set : exists c key, GUARDIAN_API_KEY env = Some (c :: key).
Hypothesis reply_ok :
  forall url, requests_get env url = Reply (Some ("ok" : str)) (Some results).
Hypothesis some_result : results <> [].

(** The answer to a search that found something. *)
Lemma get_news_data_found (query : option str) :
  exists intro_text,
    get_news_data env query =
    mkNewsResult
      (intro_text ++ " " ++ Py.join ". " (headlines 0 results) ++
       ". Would you like me to provide the URLs to see the full articles?")
      (map (fun a => (webTitle a, webUrl a)) results).
Proof.
  destruct key_set as (c & key & Hkey).
  destruct results as [|a rest] eqn:Er; [congruence|].
  unfold get_news_data. rewrite Hkey. simpl truthy.
  destruct (truthy query) as [q|];
    [destruct (existsb (Py.eqb q) common_tags)|]; cbv beta iota;
    rewrite reply_ok; eexists; reflexivity.
Qed.

End Headlines.

(** X10. The articles of a news answer are never made up: a non-empty
    list of articles is the list of (title, URL) pairs of the results of a
    reply with status ["ok"], in the order of the reply.  Conversely, with a
    key configured and a search that answers ["ok"] with at least one
    result, the answer carries one pair per result. *)
Theorem news_articles_are_the_results (env : environment) (query : option str) :
  (articles (get_news_data env query) <> [] ->
   exists url results,
     requests_get env url = Reply (Some ("ok" : str)) (Some results) /\
     articles (get_news_data env query) =
       map (fun a => (webTitle a, webUrl a)) results) /\
  (forall results,
     (exists c key, GUARDIAN_API_KEY env = Some (c :: key)) ->
     (forall url,
        requests_get env url = Reply (Some ("ok" : str)) (Some results)) ->
     results <> [] ->
     articles (get_news_data env query) =
       map (fun a => (webTitle a, webUrl a)) results /\
     length (articles (get_news_data env query)) = length results).
Proof.
  split.
  - unfold get_news_data.
    destruct (truthy (GUARDIAN_API_KEY env)) as [key|]; [|simpl; congruence].
    match goal with
    | |- context [let '(u, _) := ?p in _] => destruct p as [url intro]
    end.
    destruct (requests_get env url) as [e | status res] eqn:Er;
      [simpl; congruence|].
    destruct status as [s|]; [|simpl; congruence].
    destruct (Py.eqb s "ok") eqn:Es; [|simpl; congruence].
    apply str_eqb_eq in Es. subst s.
    destruct res as [[|a rest]|]; simpl; try congruence.
    intros _. exists url, (a :: rest). split; [exact Er | reflexivity].
  - intros results Hkey Hreply Hne.
    destruct (get_news_data_found env results Hkey Hreply Hne query)
      as [intro ->].
    simpl. split; [reflexivity | apply length_map].
Qed.

Lemma news_articles_are_the_results_witness :
  articles (get_news_data newsroom (Some ("sports" : str))) =
  [(("Rain ahead" : str), ("https://example.org/1" : str));
   (("Sun later" : str), ("https://example.org/2" : str))].
Proof.
  destruct (news_articles_are_the_results newsroom (Some ("sports" : str)))
    as [_ H].
  apply (H [mkArticle "Rain ahead" "https://example.org/1";
            mkArticle "Sun later" "https://example.org/2"]).
  - exists "t"%char, ("est-key" : str). reflexivity.
  - intros url. reflexivity.
  - discriminate.
Defined.

(** X11. In the spoken summary of a successful search every result is
    announced under its position counted from one: for the result at index
    [i] the text holds "Headline number i+1: " followed by its title, and
    the text closes with the offer to provide the URLs. *)
Theorem headlines_are_numbered_from_one
  (env : environment) (query : option str) (results : list article)
  (i : nat) (a : article) :
  (exists c key, GUARDIAN_API_KEY env = Some (c :: key)) ->
  (forall url,
     requests_get env url = Reply (Some ("ok" : str)) (Some results)) ->
  nth_error results i = Some a ->
  Py.contains
    ("Headline number " ++ Py.str_of_int (Z.of_nat i + 1) ++ ": " ++ webTitle a)
    (n_text (get_news_data env query)) = true /\
  exists before,
    n_text (get_news_data env query) =
    before ++
    ". Would you like me to provide the URLs to see the full articles?".
Proof.
  intros Hkey Hreply Hnth.
  assert (Hne : results <> []) by (intros ->; destruct i; discriminate).
  destruct (get_news_data_found env results Hkey Hreply Hne query)
    as [intro ->].
  cbn [n_text]. split.
  - apply contains_trans with (Py.join ". " (headlines 0 results)).
    + apply contains_join. eapply nth_error_In.
      apply (nth_error_headlines results 0%Z i a Hnth).
    + rewrite (app_assoc intro). apply contains_app.
  - exists (intro ++ " " ++ Py.join ". " (headlines 0 results)).
    now rewrite <- !app_assoc.
Qed.

Lemma headlines_are_numbered_from_one_witness :
  Py.contains "Headline number 2: Sun later"
    (n_text (get_news_data newsroom None)) = true.
Proof.
  apply (headlines_are_numbered_from_one newsroom None
           [mkArticle "Rain ahead" "https://example.org/1";
            mkArticle "Sun later" "https://example.org/2"]
           1%nat (mkArticle "Sun later" "https://example.org/2")).
  - exists "t"%char, ("est-key" : str). reflexivity.
  - intros url. reflexivity.
  - reflexivity.
Defined.

(** ** The weather lookup *)

Section WeatherLookup.

Variable w : Weather.world.

(** Every way the lookup can end, with what decides it. *)
Lemma get_weather_data_cases (location : option str) :
  (truthy (Weather.OPENWEATHER_API_KEY w) = None /\
   Weather.get_weather_data w location =
   Returned (Weather.mkReport "Please set your OpenWeatherMap API key." None))
  \/
  exists key url,
    truthy (Weather.OPENWEATHER_API_KEY w) = Some key /\
    ((exists e,
        Weather.conditions_get w url = Weather.ConditionsFailed e /\
        Weather.get_weather_data w location =
        Returned
          (Weather.mkReport
             ("Sorry, I had trouble getting the weather. The error was: " ++ e)
             None)) \/
     (exists data,
        Weather.conditions_get w url = Weather.Conditions data /\
        ((Weather.cod data = Some ("404" : str) /\
          Weather.get_weather_data w location =
          Returned
            (Weather.mkReport
               ("I couldn't find the weather for " ++
                location_to_use location ++ ".")
               None)) \/
         (Weather.cod data <> Some ("404" : str) /\
          ((Weather.main data = None /\
            Weather.get_weather_data w location =
            Raised (OtherError "KeyError")) \/
           (exists m,
              Weather.main data = Some m /\
              ((Weather.weather data = None /\
                Weather.get_weather_data w location =
                Raised (OtherError "KeyError")) \/
               (Weather.weather data = Some [] /\
                Weather.get_weather_data w location = Raised IndexError) \/
               (exists entry rest,
                  Weather.weather data = Some (entry :: rest) /\
                  ((Weather.temp m = None /\
                    Weather.get_weather_data w location =
                    Raised (OtherError "TypeError")) \/
                   (exists t text,
                      Weather.temp m = Some t /\
                      Weather.get_weather_data w location =
                      Returned
                        (Weather.mkReport text
                           (Some
                              (Weather.mkDetails (location_to_use location)
                                 (t ++ Weather.degrees_celsius)
                                 (match Weather.main_humidity m with
                                  | Some h => h
                                  | None => "not available" : str
                                  end ++ "%")
                                 (match Weather.main_pressure m with
                                  | Some p => p
                                  | None => "not available" : str
                                  end ++ " hPa")
                                 (Weather.entry_description entry)))))))))))))).
Proof.
  unfold Weather.get_weather_data, location_to_use.
  destruct (truthy (Weather.OPENWEATHER_API_KEY w)) as [key|]; [|now left].
  right. exists key. cbv zeta.
  match goal with
  | |- context [Weather.conditions_get w ?u] =>
      exists u; split; [reflexivity|];
      destruct (Weather.conditions_get w u) as [e | data] eqn:Ec
  end.
  - left. exists e. split; reflexivity.
  - right. exists data. split; [reflexivity|].
    destruct (Weather.cod data) as [c|] eqn:Ecod.
    + destruct (Py.eqb c "404") eqn:E404.
      * left. apply str_eqb_eq in E404. subst c. split; reflexivity.
      * right. split.
        { intros [= ->]. change (Py.eqb "404" "404") with true in E404.
          discriminate. }
        cbv iota beta. simpl negb. cbv iota.
        destruct (Weather.main data) as [m|]; [|now left].
        right. exists m. split; [reflexivity|].
        destruct (Weather.weather data) as [[|entry rest]|];
          [right; now left | | now left].
        right. right. exists entry, rest. split; [reflexivity|].
        destruct (Weather.temp m) as [t|]; [|now left].
        right. exists t. eexists. split; reflexivity.
    + right. split; [discriminate|].
      cbv iota beta. simpl negb. cbv iota.
      destruct (Weather.main data) as [m|]; [|now left].
      right. exists m. split; [reflexivity|].
      destruct (Weather.weather data) as [[|entry rest]|];
        [right; now left | | now left].
      right. right. exists entry, rest. split; [reflexivity|].
      destruct (Weather.temp m) as [t|]; [|now left].
      right. exists t. eexists. split; reflexivity.
Qed.

End WeatherLookup.

Lemma weather_failures_inv_unreachable (location : option str) :
  exists text,
    Weather.get_weather_data unreachable location =
    Returned (Weather.mkReport text None).
Proof.
  destruct (get_weather_data_cases unreachable location)
    as [[_ H] | (key & url & _ & [(e & _ & H) | (data & Hc & _)])];
    [eauto | eauto | discriminate].
Qed.

(** X14. A weather lookup that fails answers with a text and no detail
    entries: the request for the key when none is configured (then neither
    endpoint decides anything), the trouble text with the error when the
    current-conditions request fails, whatever geocoding did, and the
    not-found text with the location when the reply says ["404"]. *)
Theorem weather_failures_are_text_only
  (w : Weather.world) (location : option str) :
  (truthy (Weather.OPENWEATHER_API_KEY w) = None ->
   Weather.get_city_coords w (location_to_use location) = None /\
   Weather.get_weather_data w location =
   Returned (Weather.mkReport "Please set your OpenWeatherMap API key." None)) /\
  (forall e,
     truthy (Weather.OPENWEATHER_API_KEY w) <> None ->
     (forall url, Weather.conditions_get w url = Weather.ConditionsFailed e) ->
     Weather.get_weather_data w location =
     Returned
       (Weather.mkReport
          ("Sorry, I had trouble getting the weather. The error was: " ++ e)
          None)) /\
  (forall main weather,
     truthy (Weather.OPENWEATHER_API_KEY w) <> None ->
     (forall url,
        Weather.conditions_get w url =
        Weather.Conditions
          (Weather.mkConditions (Some ("404" : str)) main weather)) ->
     Weather.get_weather_data w location =
     Returned
       (Weather.mkReport
          ("I couldn't find the weather for " ++ location_to_use location ++ ".")
          None)).
Proof.
  split; [|split].
  - intros Hkey. unfold Weather.get_city_coords, Weather.get_weather_data.
    now rewrite Hkey.
  - intros e Hkey Hfail.
    destruct (get_weather_data_cases w location)
      as [[Hk _] | (key & url & _ & [(e' & Hc & ->) | (data & Hc & _)])];
      [congruence | | rewrite Hfail in Hc; discriminate].
    rewrite Hfail in Hc. now injection Hc as <-.
  - intros main weather Hkey Hreply.
    destruct (get_weather_data_cases w location)
      as [[Hk _] | (key & url & _ & [(e' & Hc & _) | (data & Hc & Hd)])];
      [congruence | rewrite Hreply in Hc; discriminate |].
    rewrite Hreply in Hc. injection Hc as <-.
    destruct Hd as [[_ ->] | [Hcod _]]; [reflexivity|].
    now contradiction Hcod.
Qed.

Lemma weather_failures_are_text_only_witness :
  Weather.get_weather_data unreachable (Some ("tokyo" : str)) =
  Returned
    (Weather.mkReport
       "Sorry, I had trouble getting the weather. The error was: timed out"
       None).
Proof.
  destruct (weather_failures_are_text_only unreachable (Some ("tokyo" : str)))
    as (_ & H & _).
  apply (H "timed out").
  - discriminate.
  - intros url. reflexivity.
Defined.

(** X15. Detail entries come only from a complete reply, and they name
    the place that was asked for: when the lookup returns details, the
    current-conditions reply had a ["main"] object with a temperature and a
    first ["weather"] element; the location entry is the location given, or
    New Delhi when none or an empty one was given; the temperature entry is
    the rendered temperature followed by the degree sign and [C]; humidity
    and pressure read "not available" when the reply has none. *)
Theorem weather_details_come_from_reply
  (w : Weather.world) (location : option str) (r : Weather.report)
  (d : Weather.details) :
  Weather.get_weather_data w location = Returned r ->
  Weather.report_details r = Some d ->
  Weather.d_location d = location_to_use location /\
  exists url data m entry rest t,
    Weather.conditions_get w url = Weather.Conditions data /\
    Weather.cod data <> Some ("404" : str) /\
    Weather.main data = Some m /\
    Weather.weather data = Some (entry :: rest) /\
    Weather.temp m = Some t /\
    Weather.d_temperature d = t ++ Weather.degrees_celsius /\
    Weather.d_humidity d =
      match Weather.main_humidity m with
      | Some h => h
      | None => "not available" : str
      end ++ "%" /\
    Weather.d_pressure d =
      match Weather.main_pressure m with
      | Some p => p
      | None => "not available" : str
      end ++ " hPa" /\
    Weather.d_description d = Weather.entry_description entry.
Proof.
  intros Hr Hd.
  destruct (get_weather_data_cases w location)
    as [[_ H] | (key & url & _ & [(e & _ & H) | (data & Hc & Hcase)])];
    try (rewrite H in Hr; injection Hr as <-; discriminate).
  destruct Hcase as [[_ H] | (Hcod & [[_ H] | (m & Hm & Hw)])];
    try (rewrite H in Hr; (discriminate || (injection Hr as <-; discriminate))).
  destruct Hw as [[_ H] | [[_ H] | (entry & rest & Hw & Ht)]];
    try (rewrite H in Hr; discriminate).
  destruct Ht as [[_ H] | (t & text & Ht & H)];
    [rewrite H in Hr; discriminate|].
  rewrite H in Hr. injection Hr as <-. simpl in Hd. injection Hd as <-.
  split; [reflexivity|].
  exists url, data, m, entry, rest, t. repeat split; assumption.
Qed.

Lemma weather_details_come_from_reply_witness :
  Weather.get_weather_data sunny (Some ("" : str)) =
    Returned
      (Weather.mkReport
         "The temperature in New Delhi is 21.5 degrees Celsius, with clear sky. The humidity is 40 percent, and the atmospheric pressure is not available hectopascals."
         (Some (Weather.mkDetails "New Delhi"
                  ("21.5" ++ Weather.degrees_celsius) "40%"
                  "not available hPa" (Some ("clear sky" : str))))) /\
  Weather.d_location
    (Weather.mkDetails "New Delhi" ("21.5" ++ Weather.degrees_celsius) "40%"
       "not available hPa" (Some ("clear sky" : str))) =
  location_to_use (Some ("" : str)).
Proof.
  split; [reflexivity|].
  apply (weather_details_come_from_reply sunny (Some ("" : str))
           (Weather.mkReport
              "The temperature in New Delhi is 21.5 degrees Celsius, with clear sky. The humidity is 40 percent, and the atmospheric pressure is not available hectopascals."
              (Some (Weather.mkDetails "New Delhi"
                       ("21.5" ++ Weather.degrees_celsius) "40%"
                       "not available hPa" (Some ("clear sky" : str))))));
    reflexivity.
Defined.



(** X17. The weather branch with the embedded lookup behind it.  For a
    command that holds a weather keyword and no time keyword: when the
    lookup fails with a text, the branch answers with that text under the
    type [weather], without detail entries, and leaves the reminders alone;
    when the lookup raises, the call answers with status 500 and leaves the
    reminders alone. *)
Theorem weather_branch_with_lookup
  (env : environment) (w : Weather.world) (raw : str) (now current_time : Z)
  (reminders : store) :
  serves env w ->
  any_in time_keywords (Py.lower raw) = false ->
  any_in weather_keywords (Py.lower raw) = true ->
  (forall text,
     Weather.get_weather_data w (weather_location (Py.lower raw)) =
       Returned (Weather.mkReport text None) ->
     dispatch env (Py.lower raw) now reminders =
       (Returned (WeatherResponse (mkWeatherResult text None)), reminders)) /\
  (forall e,
     Weather.get_weather_data w (weather_location (Py.lower raw)) = Raised e ->
     process_command env raw now current_time reminders =
       ((Plain ("An error occurred: " ++ exn_text env e) "error", 500%Z),
        reminders)).
Proof.
  intros Hserves Htime Hweather.
  assert (Hc : classify (Py.lower raw) =
               Returned (WeatherQuery (weather_location (Py.lower raw)))).
  { unfold classify. now rewrite Htime, Hweather. }
  specialize (Hserves (weather_location (Py.lower raw))).
  split.
  - intros text H. rewrite H in Hserves. simpl in Hserves.
    unfold dispatch, bind, lift. rewrite Hc. cbn [execute].
    unfold bind, lift. now rewrite Hserves.
  - intros e H. rewrite H in Hserves.
    apply process_command_raised.
    unfold dispatch, bind, lift. rewrite Hc. cbn [execute].
    unfold bind, lift. now rewrite Hserves.
Qed.

Lemma weather_branch_with_lookup_witness :
  dispatch offline_weather (Py.lower "What's the weather in Tokyo") 0%Z
    [mkReminder 50 "tea"] =
  (Returned
     (WeatherResponse
        (mkWeatherResult
           "Sorry, I had trouble getting the weather. The error was: timed out"
           None)),
   [mkReminder 50 "tea"]).
Proof.
  destruct (weather_branch_with_lookup offline_weather unreachable
              "What's the weather in Tokyo" 0%Z 0%Z [mkReminder 50 "tea"])
    as [H _].
  - intros loc. unfold offline_weather. cbn [get_weather_data].
    destruct (Weather.get_weather_data unreachable loc) as [r|e] eqn:E;
      [|reflexivity].
    destruct (weather_failures_inv_unreachable loc) as [text Ht].
    rewrite Ht in E. injection E as <-. reflexivity.
  - reflexivity.
  - reflexivity.
  - apply H. reflexivity.
Defined.

Example lower_ex : Py.lower "Remind ME in 5 Minutes" = "remind me in 5 minutes".
Proof. reflexivity. Qed.

Example find_ex : Py.find "weather in" "the weather in rome" = 4%Z.
Proof. reflexivity. Qed.

Example split_once_ex :
  Py.split_once "about" "news about cats" = Some (("news ":str), (" cats":str)).
Proof. reflexivity. Qed.

Example strip_ex : Py.strip "  to call mom " = "to call mom".
Proof. reflexivity. Qed.

Example int_ex : Py.int " 1_000" = Some 1000%Z /\ Py.int "5minutes" = None /\
                 Py.int "-5" = Some (-5)%Z /\ Py.int "" = None.
Proof. repeat split. Qed.

Example search_ex :
  Re.search reminder_pattern "at 12a wait 34  minutes more" = Some ("34  minutes" : str) /\
  Re.search reminder_pattern "in 5minutes" = Some ("5minutes" : str) /\
  Re.search reminder_pattern "in 5 minute" = Some ("5 minute" : str) /\
  Re.search reminder_pattern "in five minutes" = None.
Proof. repeat split. Qed.

Example classify_order_ex :
  classify "what time is the weather forecast" = Returned TimeQuery /\
  classify "news on london for today" = Returned (NewsQuery (Some ("london for today" : str))) /\
  classify "set a reminder to take out the trash in 5 minutes" =
    Returned ReminderWithoutMessage /\
  classify "remind me later" = Returned ReminderWithoutTime.
Proof. repeat split. Qed.

Example immediate_reminder_ex :
  process_command offline "Remind me in 0 seconds to stretch" 1000%Z 1000%Z [] =
  ((Plain "Reminder: to stretch" "reminder_alert", 200%Z), []).
Proof. reflexivity. Qed.
